(** * SAP GUI Scripting wrapper ([sap_scripting.py]): model and properties

    The wrapper class [SapSession] drives a remote, stateful COM object model
    (GuiSession and the controls below it).  The remote side is modelled as a
    record of operations over an abstract world; the wrapper's methods are
    programs of a state-and-exception monad that thread the world and record
    every COM call and every logging call they make, in the order they make it.
    Strings are sequences of characters with code points below 256. *)

From Stdlib Require Import ZArith String Ascii List Lia.
From stdpp Require Import base option list gmap strings sorting pretty.

Open Scope string_scope.
Open Scope Z_scope.

(** ** Python values and exceptions *)

(** The [Exception] subclasses the wrapper meets: whatever a COM call raises
    (pywintypes' com_error, AttributeError on a control lacking the member)
    and the [ValueError] the wrapper raises itself. *)
Inductive exn : Type :=
| ComError (msg : string)
| ValueError (msg : string).

Inductive result (A : Type) : Type :=
| Ok (a : A)
| Raise (e : exn).
Arguments Ok {A} a.
Arguments Raise {A} e.

Definition is_ok {A} (r : result A) : bool :=
  match r with Ok _ => true | Raise _ => false end.

(** Truthiness of a Python [str]. *)
Definition truthy (s : string) : bool :=
  match s with EmptyString => false | String _ _ => true end.

(** [range(n)] for an integer [n]: empty when [n <= 0]. *)
Definition py_range (n : Z) : list Z := map Z.of_nat (seq 0 (Z.to_nat n)).

(** [str.strip()]: the characters Python counts as whitespace, among code
    points below 256, are 9-13, 28-32, 133 and 160. *)
Definition is_space (c : ascii) : bool :=
  let n := N_of_ascii c in
  ((9 <=? n)%N && (n <=? 13)%N) || ((28 <=? n)%N && (n <=? 32)%N)
  || (n =? 133)%N || (n =? 160)%N.

Fixpoint lstrip (s : string) : string :=
  match s with
  | EmptyString => EmptyString
  | String c s' => if is_space c then lstrip s' else s
  end.

Definition rstrip (s : string) : string := String.rev (lstrip (String.rev s)).

Definition strip (s : string) : string := rstrip (lstrip s).

(** [sorted(values)] for a set of strings: ascending in the lexicographic
    order of code points. *)
Definition sorted (values : gset string) : list string :=
  merge_sort String.le (elements values).

(** A GuiCollection of strings: [Count] and the call [collection(i)]. *)
Record collection : Type := {
  Count : Z;
  Item : Z -> result string;
}.

(** ** The remote scripting object model *)

(** Queries read the remote state; actions may change it, also when they
    raise.  [Handle] is a reference to a live control. *)
Record Remote : Type := {
  World : Type;
  Handle : Type;
  findById : World -> string -> result Handle;
  findByName : World -> string -> string -> result Handle;
  Text : World -> Handle -> result string;
  MessageType : World -> Handle -> result string;
  RowCount : World -> Handle -> result Z;
  ColumnOrder : World -> Handle -> result collection;
  GetCellValue : World -> Handle -> Z -> string -> result string;
  StartTransaction : World -> string -> result unit * World;
  sendVKey : World -> Handle -> Z -> result unit * World;
  set_text : World -> Handle -> string -> result unit * World;
  set_selected : World -> Handle -> bool -> result unit * World;
  press : World -> Handle -> result unit * World;
  LockSessionUI : World -> result unit * World;
  UnlockSessionUI : World -> result unit * World;
}.

Inductive log_level : Type := DEBUG | INFO | WARNING.

(** What an observer of the session and of the logger sees. *)
Inductive event (R : Remote) : Type :=
| EvFindById (id : string)
| EvFindByName (name ftype : string)
| EvText (h : Handle R)
| EvMessageType (h : Handle R)
| EvRowCount (h : Handle R)
| EvColumnOrder (h : Handle R)
| EvGetCellValue (h : Handle R) (row : Z) (col : string)
| EvStartTransaction (tcode : string)
| EvSendVKey (h : Handle R) (vkey : Z)
| EvSetText (h : Handle R) (value : string)
| EvSetSelected (h : Handle R) (checked : bool)
| EvPress (h : Handle R)
| EvLockSessionUI
| EvUnlockSessionUI
| EvLog (lvl : log_level) (msg : string).
Arguments EvFindById {R} id.
Arguments EvFindByName {R} name ftype.
Arguments EvText {R} h.
Arguments EvMessageType {R} h.
Arguments EvRowCount {R} h.
Arguments EvColumnOrder {R} h.
Arguments EvGetCellValue {R} h row col.
Arguments EvStartTransaction {R} tcode.
Arguments EvSendVKey {R} h vkey.
Arguments EvSetText {R} h value.
Arguments EvSetSelected {R} h checked.
Arguments EvPress {R} h.
Arguments EvLockSessionUI {R}.
Arguments EvUnlockSessionUI {R}.
Arguments EvLog {R} lvl msg.

Record state (R : Remote) : Type := mkState {
  world : World R;
  trace : list (event R);
}.
Arguments mkState {R} world trace.
Arguments world {R} s.
Arguments trace {R} s.

(** ** The monad of wrapper code *)

Definition M (R : Remote) (A : Type) : Type := state R -> result A * state R.

Definition ret {R A} (a : A) : M R A := fun s => (Ok a, s).

Definition bind {R A B} (m : M R A) (k : A -> M R B) : M R B :=
  fun s => match m s with
           | (Ok a, s') => k a s'
           | (Raise e, s') => (Raise e, s')
           end.

Definition raise {R A} (e : exn) : M R A := fun s => (Raise e, s).

(** [try: m / except Exception: h]. *)
Definition try_except {R A} (m : M R A) (h : exn -> M R A) : M R A :=
  fun s => match m s with
           | (Ok a, s') => (Ok a, s')
           | (Raise e, s') => h e s'
           end.

(** [try: m / finally: fin]: [fin] runs on both exits; an exception of
    [fin] replaces the outcome of [m]. *)
Definition try_finally {R A} (m : M R A) (fin : M R unit) : M R A :=
  fun s => match m s with
           | (r, s') => match fin s' with
                        | (Ok _, s'') => (r, s'')
                        | (Raise e, s'') => (Raise e, s'')
                        end
           end.

Notation "x <- m ;; k" := (bind m (fun x => k))
  (at level 100, m at next level, right associativity).
Notation "m ;;; k" := (bind m (fun _ => k))
  (at level 100, right associativity).

(** A [for] loop with an accumulator, and a list comprehension. *)
Fixpoint for_fold {R A B} (f : B -> A -> M R B) (b : B) (l : list A) : M R B :=
  match l with
  | [] => ret b
  | a :: l' => b' <- f b a ;; for_fold f b' l'
  end.

Fixpoint for_each {R A} (f : A -> M R unit) (l : list A) : M R unit :=
  match l with
  | [] => ret tt
  | a :: l' => f a ;;; for_each f l'
  end.

Fixpoint for_list {R A B} (f : A -> M R B) (l : list A) : M R (list B) :=
  match l with
  | [] => ret []
  | a :: l' => b <- f a ;; bs <- for_list f l' ;; ret (b :: bs)
  end.

Section Primitives.
Context {R : Remote}.

Definition emit (ev : event R) (s : state R) : state R :=
  mkState (world s) (trace s ++ [ev]).

(** A property read or a lookup: observed, the world unchanged. *)
Definition query {A} (ev : event R) (f : World R -> result A) : M R A :=
  fun s => (f (world s), emit ev s).

(** A call that acts on the remote session. *)
Definition action (ev : event R) (f : World R -> result unit * World R)
  : M R unit :=
  fun s => match f (world s) with
           | (r, w') => (r, mkState w' (trace s ++ [ev]))
           end.

Definition log (lvl : log_level) (msg : string) : M R unit :=
  fun s => (Ok tt, emit (EvLog lvl msg) s).

Definition lift {A} (r : result A) : M R A := fun s => (r, s).

Definition session_findById (id : string) : M R (Handle R) :=
  query (EvFindById id) (fun w => findById R w id).

Definition session_findByName (name ftype : string) : M R (Handle R) :=
  query (EvFindByName name ftype) (fun w => findByName R w name ftype).
End Primitives.

(** ** class SapSession *)

Module SapSession.
Section Methods.
Context {R : Remote}.

Definition VKEY_ENTER : Z := 0.
Definition VKEY_F8 : Z := 8.

Definition start_transaction (tcode : string) : M R unit :=
  log INFO ("Starting transaction: " ++ tcode) ;;;
  action (EvStartTransaction tcode) (fun w => StartTransaction R w tcode).

Definition send_vkey (vkey : Z) (window_id : string) : M R unit :=
  wnd <- session_findById window_id ;;
  action (EvSendVKey wnd vkey) (fun w => sendVKey R w wnd vkey).

(** [find_by_id(element_id, raise_error)]; [None] is Python's [None]. *)
Definition find_by_id (element_id : string) (raise_error : bool)
  : M R (option (Handle R)) :=
  try_except
    (h <- session_findById element_id ;; ret (Some h))
    (fun e => if raise_error then raise e else ret None).

(** The [for ftype in [...]: try ... break / except: continue / else: raise]
    loop of [set_field]. *)
Fixpoint set_field_probe (field_name : string) (ftypes : list string)
  : M R (Handle R) :=
  match ftypes with
  | [] => raise (ValueError ("Field '" ++ field_name
                             ++ "' not found as ctxt/txt/cmb"))
  | ftype :: rest =>
      try_except (session_findByName field_name ftype)
                 (fun _ => set_field_probe field_name rest)
  end.

Definition set_field (field_name value field_type : string) : M R unit :=
  element <- (if truthy field_type
              then session_findByName field_name field_type
              else set_field_probe field_name ["ctxt"; "txt"; "cmb"]) ;;
  action (EvSetText element value) (fun w => set_text R w element value) ;;;
  log DEBUG ("Set field " ++ field_name ++ " = '" ++ value ++ "'").

Definition set_field_by_id (element_id value : string) : M R unit :=
  element <- session_findById element_id ;;
  action (EvSetText element value) (fun w => set_text R w element value).

Definition set_checkbox_by_id (element_id : string) (checked : bool)
  : M R unit :=
  element <- session_findById element_id ;;
  action (EvSetSelected element checked)
         (fun w => set_selected R w element checked).

(** The dict [{"text": ..., "type": ...}] of [get_statusbar]. *)
Record statusbar : Type := { sb_text : string; sb_type : string }.

Definition get_statusbar : M R statusbar :=
  sbar <- session_findById "wnd[0]/sbar" ;;
  text <- query (EvText sbar) (fun w => Text R w sbar) ;;
  mtype <- query (EvMessageType sbar) (fun w => MessageType R w sbar) ;;
  ret {| sb_text := text; sb_type := mtype |}.

Definition is_error_type (mtype : string) : bool :=
  (mtype =? "E")%string || (mtype =? "A")%string.

Definition check_statusbar_error : M R (option string) :=
  sb <- get_statusbar ;;
  if is_error_type (sb_type sb) then ret (Some (sb_text sb)) else ret None.

Definition press_dismiss (button_id : string) : M R bool :=
  try_except
    (btn <- session_findById button_id ;;
     action (EvPress btn) (fun w => press R w btn) ;;;
     ret true)
    (fun _ => ret false).

Definition handle_popup (button_id : string) (check_exists : bool)
  : M R bool :=
  if check_exists then
    popup <- find_by_id "wnd[1]" false ;;
    match popup with
    | None => ret false
    | Some _ => press_dismiss button_id
    end
  else press_dismiss button_id.

Definition common_paths (search_id : string) : list string :=
  [ search_id ++ "/cntlRESULT_LIST/shellcont/shell";
    search_id ++ "/cntlCONTAINER/shellcont/shell";
    search_id ++ "/cntlGRID1/shellcont/shell";
    search_id ++ "/cntlGRID/shellcont/shell";
    search_id ++ "/cntlALV_CONTAINER/shellcont/shell" ].

Fixpoint find_grid_probe (paths : list string) : M R (option (Handle R)) :=
  match paths with
  | [] => ret None
  | path :: rest =>
      grid <- find_by_id path false ;;
      match grid with
      | Some g => ret (Some g)
      | None => find_grid_probe rest
      end
  end.

Definition find_grid (search_id : string) : M R (option (Handle R)) :=
  find_grid_probe (common_paths search_id).

Definition grid_get_columns (grid : Handle R) : M R (list string) :=
  col_order <- query (EvColumnOrder grid) (fun w => ColumnOrder R w grid) ;;
  for_list (fun i => lift (Item col_order i)) (py_range (Count col_order)).

Definition grid_get_cell (grid : Handle R) (row : Z) (col : string)
  : M R string :=
  query (EvGetCellValue grid row col) (fun w => GetCellValue R w grid row col).

(** One pass of the inner loop: [record[col] = value], or [""] when the
    read raised. *)
Definition read_cell (grid : Handle R) (row : Z)
    (record : gmap string string) (col : string)
  : M R (gmap string string) :=
  v <- try_except (grid_get_cell grid row col) (fun _ => ret "") ;;
  ret (<[col := v]> record).

Definition read_row (grid : Handle R) (columns : list string) (row : Z)
  : M R (gmap string string) :=
  for_fold (read_cell grid row) ∅ columns.

Definition times_sign : string := String (ascii_of_nat 215) EmptyString.

Definition grid_read_all (grid : Handle R) (columns : option (list string))
    (max_rows : Z) : M R (list (gmap string string)) :=
  columns <- match columns with
             | None => grid_get_columns grid
             | Some cols => ret cols
             end ;;
  total <- query (EvRowCount grid) (fun w => RowCount R w grid) ;;
  let total := if 0 <? max_rows then Z.min total max_rows else total in
  data <- for_list (read_row grid columns) (py_range total) ;;
  log INFO ("Grid read: " ++ pretty total ++ " rows " ++ times_sign ++ " "
            ++ pretty (length columns) ++ " columns") ;;;
  ret data.

Definition distinct_step (grid : Handle R) (column : string)
    (values : gset string) (row : Z) : M R (gset string) :=
  val <- grid_get_cell grid row column ;;
  ret ({[ strip val ]} ∪ values).

Definition grid_get_distinct (grid : Handle R) (column : string)
  : M R (list string) :=
  n <- query (EvRowCount grid) (fun w => RowCount R w grid) ;;
  values <- for_fold (distinct_step grid column) ∅ (py_range n) ;;
  ret (sorted values).

Definition lock_ui : M R unit :=
  action EvLockSessionUI (fun w => LockSessionUI R w).

Definition unlock_ui : M R unit :=
  action EvUnlockSessionUI (fun w => UnlockSessionUI R w).

(** [with sap.locked(): body]. The generator runs [lock_ui] up to its
    [yield]; the block's exit, normal or not, resumes it in the [finally]. *)
Definition locked {A} (body : M R A) : M R A :=
  lock_ui ;;;
  try_finally body unlock_ui.

(** [element.text], read. *)
Definition read_text (element : Handle R) : M R string :=
  query (EvText element) (fun w => Text R w element).

(** The [for ftype in ["txt", "ctxt", "lbl"]: try: return ... except:
    continue], then [raise ValueError], of [get_field]. *)
Fixpoint get_field_probe (field_name : string) (ftypes : list string)
  : M R string :=
  match ftypes with
  | [] => raise (ValueError ("Field '" ++ field_name ++ "' not found"))
  | ftype :: rest =>
      try_except
        (element <- session_findByName field_name ftype ;; read_text element)
        (fun _ => get_field_probe field_name rest)
  end.

Definition get_field (field_name field_type : string) : M R string :=
  if truthy field_type
  then element <- session_findByName field_name field_type ;;
       read_text element
  else get_field_probe field_name ["txt"; "ctxt"; "lbl"].

(** The two cell addresses [table_read_cell] tries. *)
Definition table_cell_id (table_id prefix col_name : string) (row : Z)
  : string :=
  table_id ++ "/" ++ prefix ++ col_name ++ "[0," ++ pretty row ++ "]".

Definition table_read_cell (table_id : string) (row : Z) (col_name : string)
  : M R string :=
  try_except
    (cell <- session_findById (table_cell_id table_id "ctxt" col_name row) ;;
     read_text cell)
    (fun _ =>
       try_except
         (cell <- session_findById (table_cell_id table_id "txt" col_name row) ;;
          read_text cell)
         (fun _ => ret "")).

End Methods.
End SapSession.

(** ** Module-level helpers: generic transaction patterns *)

(** A field configuration of [run_se16h]: the dict with the key ["name"] and
    the optional keys ["group"], ["sum"] and ["value"]. *)
Record field_cfg : Type := {
  fc_name : string;
  fc_group : option bool;
  fc_sum : option bool;
  fc_value : option string;
}.

(** Truthiness of [d.get(key)] for an optional flag. *)
Definition get_truthy (flag : option bool) : bool :=
  match flag with Some true => true | _ => false end.

(** Truthiness of an [Optional[str]]: [None] and [""] are both falsy. *)
Definition err_truthy (err : option string) : bool :=
  match err with Some msg => truthy msg | None => false end.

Definition err_text (err : option string) : string :=
  match err with Some msg => msg | None => "None" end.

Definition enumerate {A} (l : list A) : list (nat * A) :=
  zip (seq 0 (length l)) l.

(** A GridSnapshot: one dict per row, column id to cell text. *)
Abbreviation rows := (list (gmap string string)).

Section Helpers.
Context {R : Remote}.
Import SapSession.

Definition fields_table : string := "wnd[0]/usr/tblSAPLSE16HFIELDS_TABLE".

(** Body of the first loop of [run_se16h]. *)
Definition se16h_field_row (entry : nat * field_cfg) : M R unit :=
  let (idx, cfg) := entry in
  set_field_by_id
    (fields_table ++ "/ctxtGS_FIELDS-FIELDNAME[0," ++ pretty idx ++ "]")
    (fc_name cfg) ;;;
  (if get_truthy (fc_group cfg)
   then set_checkbox_by_id
          (fields_table ++ "/chkGS_FIELDS-AGGR[4," ++ pretty idx ++ "]") true
   else ret tt) ;;;
  (if get_truthy (fc_sum cfg)
   then set_checkbox_by_id
          (fields_table ++ "/chkGS_FIELDS-SUM[5," ++ pretty idx ++ "]") true
   else ret tt).

(** Body of the second loop of [run_se16h]. *)
Definition se16h_selection_value (cfg : field_cfg) : M R unit :=
  match fc_value cfg with
  | Some value => try_except (set_field (fc_name cfg) value "")
                             (fun _ => ret tt)
  | None => ret tt
  end.

(** [run_se16h] up to and including [sap.handle_popup()]. *)
Definition run_se16h_execute (table : string) (fields : list field_cfg)
    (max_rows : Z) : M R unit :=
  start_transaction "SE16H" ;;;
  set_field_by_id "wnd[0]/usr/ctxtGD-TAB" table ;;;
  send_vkey VKEY_ENTER "wnd[0]" ;;;
  for_each se16h_field_row (enumerate fields) ;;;
  send_vkey VKEY_ENTER "wnd[0]" ;;;
  for_each se16h_selection_value fields ;;;
  (if (0 <? max_rows)%Z
   then try_except
          (set_field_by_id "wnd[0]/usr/txtGD-MAX_LINES" (pretty max_rows))
          (fun _ => ret tt)
   else ret tt) ;;;
  send_vkey VKEY_F8 "wnd[0]" ;;;
  handle_popup "wnd[1]/tbar[0]/btn[0]" true ;;;
  ret tt.

Definition se16h_read_cols (fields : list field_cfg) : list string :=
  map fc_name fields
  ++ (if existsb (fun f => get_truthy (fc_group f)) fields
      then ["COUNT"] else []).

(** [run_se16h] from [grid = sap.find_grid()] on. *)
Definition run_se16h_harvest (fields : list field_cfg) (max_rows : Z)
  : M R rows :=
  grid <- find_grid "wnd[0]/usr" ;;
  match grid with
  | None => log WARNING "SE16H: No grid found in results" ;;; ret []
  | Some g => grid_read_all g (Some (se16h_read_cols fields)) max_rows
  end.

Definition run_se16h (table : string) (fields : list field_cfg)
    (max_rows : Z) : M R rows :=
  run_se16h_execute table fields max_rows ;;;
  err <- check_statusbar_error ;;
  if err_truthy err
  then log WARNING ("SE16H status: " ++ err_text err) ;;; ret []
  else run_se16h_harvest fields max_rows.

(** Body of the fill loop of [run_transaction_report]. *)
Definition fill_field (item : string * string) : M R unit :=
  let (field_name, value) := item in
  try_except (set_field field_name value "")
    (fun _ =>
       try_except (set_field field_name value "txt")
         (fun _ => log WARNING ("Could not set field " ++ field_name))).

(** [if selection_fields: for field_name, value in selection_fields.items()];
    the dict is its items in insertion order. *)
Definition fill_selection (selection_fields : option (list (string * string)))
  : M R unit :=
  match selection_fields with
  | None | Some [] => ret tt
  | Some items => for_each fill_field items
  end.

(** [run_transaction_report] up to and including [sap.handle_popup()]. *)
Definition run_transaction_report_execute (tcode : string)
    (selection_fields : option (list (string * string))) (execute_vkey : Z)
  : M R unit :=
  start_transaction tcode ;;;
  fill_selection selection_fields ;;;
  send_vkey execute_vkey "wnd[0]" ;;;
  handle_popup "wnd[1]/tbar[0]/btn[0]" true ;;;
  ret tt.

(** [run_transaction_report] from [grid = sap.find_grid()] on. *)
Definition run_transaction_report_harvest (tcode : string)
    (read_columns : option (list string)) (max_rows : Z) : M R rows :=
  grid <- find_grid "wnd[0]/usr" ;;
  match grid with
  | None => log WARNING (tcode ++ ": No grid found") ;;; ret []
  | Some g => grid_read_all g read_columns max_rows
  end.

Definition run_transaction_report (tcode : string)
    (selection_fields : option (list (string * string))) (execute_vkey : Z)
    (read_columns : option (list string)) (max_rows : Z) : M R rows :=
  run_transaction_report_execute tcode selection_fields execute_vkey ;;;
  err <- check_statusbar_error ;;
  if err_truthy err
  then log WARNING (tcode ++ " status: " ++ err_text err) ;;; ret []
  else run_transaction_report_harvest tcode read_columns max_rows.
End Helpers.

(** ** Introspection: column titles and the screen explorer *)

(** A value of the dicts [explore_screen] builds: a string, a boolean or
    [None]. *)
Inductive pyval : Type :=
| VStr (s : string)
| VBool (b : bool)
| VNone.

(** A GuiComponentCollection: [Count] and the call [collection(i)]. *)
Record components (H : Type) : Type := {
  CCount : Z;
  CItem : Z -> result H;
}.
Arguments CCount {H} c.
Arguments CItem {H} c i.

(** The members of the object model that introspection reads, beside those
    of [Remote].  They are property reads; they leave no entry in the trace. *)
Record Introspection (R : Remote) : Type := {
  Children : World R -> Handle R -> result (components (Handle R));
  Id : World R -> Handle R -> result string;
  Type_ : World R -> Handle R -> result string;
  Name : World R -> Handle R -> result string;
  Changeable : World R -> Handle R -> result bool;
  ContainerType : World R -> Handle R -> result bool;
  GetDisplayedColumnTitle : World R -> Handle R -> string -> result string;
}.
Arguments Children {R} i w h.
Arguments Id {R} i w h.
Arguments Type_ {R} i w h.
Arguments Name {R} i w h.
Arguments Changeable {R} i w h.
Arguments ContainerType {R} i w h.
Arguments GetDisplayedColumnTitle {R} i w h col.

(** [str(e)]. *)
Definition exn_str (e : exn) : string :=
  match e with ComError msg | ValueError msg => msg end.

Module Explorer.
Section Methods.
Context {R : Remote} (I : Introspection R).
Import SapSession.

Abbreviation info := (gmap string pyval).

Definition peek {A} (f : World R -> result A) : M R A :=
  fun s => (f (world s), s).

(** One pass of the loop of [grid_get_column_titles]. *)
Definition title_step (grid : Handle R) (titles : gmap string string)
    (col : string) : M R (gmap string string) :=
  title <- try_except (peek (fun w => GetDisplayedColumnTitle I w grid col))
                      (fun _ => ret col) ;;
  ret (<[col := title]> titles).

Definition grid_get_column_titles (grid : Handle R)
  : M R (gmap string string) :=
  columns <- grid_get_columns grid ;;
  for_fold (title_step grid) ∅ columns.

(** The dict literal [{"id": c.Id, "type": c.Type, "name": c.Name}]. *)
Definition element_info (c : Handle R) : M R info :=
  id <- peek (fun w => Id I w c) ;;
  ty <- peek (fun w => Type_ I w c) ;;
  name <- peek (fun w => Name I w c) ;;
  ret (<["name" := VStr name]> (<["type" := VStr ty]> (<["id" := VStr id]> ∅))).

(** [try: info["text"] = c.Text / except Exception: info["text"] = ""]. *)
Definition with_text (c : Handle R) (record : info) : M R info :=
  text <- try_except (read_text c) (fun _ => ret "") ;;
  ret (<["text" := VStr text]> record).

(** [try: info["changeable"] = c.Changeable / except Exception:
    info["changeable"] = None]. *)
Definition with_changeable (c : Handle R) (record : info) : M R info :=
  v <- try_except (b <- peek (fun w => Changeable I w c) ;; ret (VBool b))
                  (fun _ => ret VNone) ;;
  ret (<["changeable" := v]> record).

(** The loop over the sub-children of a container child.  The list
    [elements] is appended to in place, so what was appended before an
    exception stays; the loop therefore hands the list back on both exits,
    the exceptional one being the [except Exception: pass] around it. *)
Fixpoint sub_loop (sub_children : components (Handle R)) (js : list Z)
    (elements : list info) : M R (list info) :=
  match js with
  | [] => ret elements
  | j :: rest =>
      r <- try_except
             (sc <- lift (CItem sub_children j) ;;
              sub_info <- element_info sc ;;
              sub_info <- with_text sc sub_info ;;
              ret (Some sub_info))
             (fun _ => ret None) ;;
      match r with
      | Some sub_info => sub_loop sub_children rest (elements ++ [sub_info])
      | None => ret elements
      end
  end.

(** [try: if child.ContainerType: ... / except Exception: pass]. *)
Definition sub_scan (child : Handle R) (elements : list info)
  : M R (list info) :=
  try_except
    (is_container <- peek (fun w => ContainerType I w child) ;;
     if (is_container : bool)
     then sub_children <- peek (fun w => Children I w child) ;;
          sub_loop sub_children (py_range (CCount sub_children)) elements
     else ret elements)
    (fun _ => ret elements).

(** The loop over the children.  An exception of [children(i)] or of the
    dict literal leaves the loop for the outer [except Exception as e]; the
    loop hands back the list as appended so far, and that exception. *)
Fixpoint child_loop (children : components (Handle R)) (idxs : list Z)
    (elements : list info) : M R (list info * option exn) :=
  match idxs with
  | [] => ret (elements, None)
  | i :: rest =>
      r <- try_except
             (child <- lift (CItem children i) ;;
              record <- element_info child ;;
              ret (inl (child, record)))
             (fun e => ret (inr e)) ;;
      match r with
      | inr e => ret (elements, Some e)
      | inl (child, record) =>
          record <- with_text child record ;;
          record <- with_changeable child record ;;
          elements <- sub_scan child (elements ++ [record]) ;;
          child_loop children rest elements
      end
  end.

Definition explore_screen (container_id : string) : M R (list info) :=
  r <- try_except
         (container <- session_findById container_id ;;
          children <- peek (fun w => Children I w container) ;;
          child_loop children (py_range (CCount children)) [])
         (fun e => ret ([], Some e)) ;;
  match r with
  | (elements, Some e) =>
      log WARNING ("explore_screen error: " ++ exn_str e) ;;; ret elements
  | (elements, None) => ret elements
  end.
End Methods.
End Explorer.

(** ** A scripted session to run the wrapper against

    A control is referred to by its address.  The secondary window and the
    controls on it resolve only while the popup is open; pressing a control
    of the popup closes it, unless that control is scripted to raise. *)
Module Mock.
Record config : Type := {
  ids : list string;
  names : list (string * string);
  press_raises : list string;
  status_text : string;
  status_type : string;
  grid_id : string;
  row_count : Z;
  column_order : list string;
  cell : Z -> string -> result string;
}.

Record mock_world : Type := {
  popup_open : bool;
  ui_locked : bool;
  unlock_calls : nat;
}.

Definition not_found : exn :=
  ComError "The control could not be found by id.".

Definition on_popup (id : string) : bool := String.prefix "wnd[1]" id.

Definition mock_findById (c : config) (w : mock_world) (id : string)
  : result string :=
  if bool_decide (id ∈ ids c) && (negb (on_popup id) || popup_open w)
  then Ok id else Raise not_found.

Definition mock_findByName (c : config) (w : mock_world)
    (name ftype : string) : result string :=
  if bool_decide ((name, ftype) ∈ names c)
  then Ok ("wnd[0]/usr/" ++ ftype ++ name) else Raise not_found.

Definition on_sbar {A} (h : string) (a : A) : result A :=
  if (h =? "wnd[0]/sbar")%string then Ok a
  else Raise (ComError "no such property").

Definition on_grid {A} (c : config) (h : string) (r : result A) : result A :=
  if (h =? grid_id c)%string then r
  else Raise (ComError "no such property").

Definition mock_ColumnOrder (c : config) : collection :=
  {| Count := Z.of_nat (length (column_order c));
     Item := fun i =>
       match column_order c !! Z.to_nat i with
       | Some col => Ok col
       | None => Raise (ComError "index out of range")
       end |}.

Definition mock_press (c : config) (w : mock_world) (h : string)
  : result unit * mock_world :=
  if bool_decide (h ∈ press_raises c)
  then (Raise (ComError "The control is disabled."), w)
  else (Ok tt,
        if on_popup h
        then {| popup_open := false; ui_locked := ui_locked w;
                unlock_calls := unlock_calls w |}
        else w).

Definition remote (c : config) : Remote := {|
  World := mock_world;
  Handle := string;
  findById := mock_findById c;
  findByName := mock_findByName c;
  Text := fun _ h => on_sbar h (status_text c);
  MessageType := fun _ h => on_sbar h (status_type c);
  RowCount := fun _ h => on_grid c h (Ok (row_count c));
  ColumnOrder := fun _ h => on_grid c h (Ok (mock_ColumnOrder c));
  GetCellValue := fun _ h row col => on_grid c h (cell c row col);
  StartTransaction := fun w _ => (Ok tt, w);
  sendVKey := fun w _ _ => (Ok tt, w);
  set_text := fun w _ _ => (Ok tt, w);
  set_selected := fun w _ _ => (Ok tt, w);
  press := mock_press c;
  LockSessionUI := fun w =>
    (Ok tt, {| popup_open := popup_open w; ui_locked := true;
               unlock_calls := unlock_calls w |});
  UnlockSessionUI := fun w =>
    (Ok tt, {| popup_open := popup_open w; ui_locked := false;
               unlock_calls := S (unlock_calls w) |});
|}.

Definition start (c : config) (popup : bool) : state (remote c) :=
  mkState (R := remote c)
    {| popup_open := popup; ui_locked := false; unlock_calls := 0 |} [].
End Mock.

(** Scripted sessions used as concrete inputs. *)

(** A popup is open and its dismiss button raises when pressed. *)
Definition stuck_popup : Mock.config := {|
  Mock.ids := ["wnd[0]"; "wnd[0]/sbar"; "wnd[1]"; "wnd[1]/tbar[0]/btn[0]"];
  Mock.names := [];
  Mock.press_raises := ["wnd[1]/tbar[0]/btn[0]"];
  Mock.status_text := "";
  Mock.status_type := "S";
  Mock.grid_id := "wnd[0]/usr/cntlGRID/shellcont/shell";
  Mock.row_count := 0;
  Mock.column_order := [];
  Mock.cell := fun _ _ => Raise Mock.not_found;
|}.

(** A grid of four rows: column ["V"] holds the values ["A "], ["A"],
    [" A"], ["B"]; every read of column ["K"] raises.  The status bar
    reports severity Error with an empty message text, and no popup control
    raises. *)
Definition demo_cell (row : Z) (col : string) : result string :=
  if (col =? "V")%string
  then match ["A "; "A"; " A"; "B"] !! Z.to_nat row with
       | Some v => Ok v
       | None => Raise (ComError "row out of range")
       end
  else Raise (ComError "cell type not readable").

Definition demo_grid : string := "wnd[0]/usr/cntlGRID1/shellcont/shell".

Definition demo : Mock.config := {|
  Mock.ids := ["wnd[0]"; "wnd[0]/sbar"; "wnd[0]/usr/ctxtGD-TAB";
               "wnd[0]/usr/tblSAPLSE16HFIELDS_TABLE/ctxtGS_FIELDS-FIELDNAME[0,0]";
               "wnd[0]/usr/tblSAPLSE16HFIELDS_TABLE/ctxtGS_FIELDS-FIELDNAME[0,1]";
               "wnd[1]"; "wnd[1]/tbar[0]/btn[0]"; demo_grid];
  Mock.names := [("BUKRS", "ctxt")];
  Mock.press_raises := [];
  Mock.status_text := "";
  Mock.status_type := "E";
  Mock.grid_id := demo_grid;
  Mock.row_count := 4;
  Mock.column_order := ["V"; "K"];
  Mock.cell := demo_cell;
|}.

(** The same session with a message text on the error status. *)
Definition demo_with_text : Mock.config := {|
  Mock.ids := Mock.ids demo;
  Mock.names := Mock.names demo;
  Mock.press_raises := [];
  Mock.status_text := "No authorization";
  Mock.status_type := "E";
  Mock.grid_id := demo_grid;
  Mock.row_count := 4;
  Mock.column_order := ["V"; "K"];
  Mock.cell := demo_cell;
|}.

(** The two field configurations used against [demo] with [run_se16h], and
    the rows a read of the grid of [demo] returns. *)
Definition demo_fields : list field_cfg :=
  [ {| fc_name := "V"; fc_group := None; fc_sum := None; fc_value := None |};
    {| fc_name := "K"; fc_group := None; fc_sum := None; fc_value := None |} ].

Definition demo_rows : rows :=
  map (fun v => <["V" := v]> (<["K" := ""]> ∅)) ["A "; "A"; " A"; "B"].

(** A scripted session with some members replaced: used to script a
    refusing [StartTransaction], an unreadable or read-only text, a lock
    that cannot be taken or released. *)
Definition patch (R0 : Remote)
    (start : World R0 -> string -> result unit * World R0)
    (text : World R0 -> Handle R0 -> result string)
    (settext : World R0 -> Handle R0 -> string -> result unit * World R0)
    (lock unlock : World R0 -> result unit * World R0) : Remote := {|
  World := World R0;
  Handle := Handle R0;
  findById := findById R0;
  findByName := findByName R0;
  Text := text;
  MessageType := MessageType R0;
  RowCount := RowCount R0;
  ColumnOrder := ColumnOrder R0;
  GetCellValue := GetCellValue R0;
  StartTransaction := start;
  sendVKey := sendVKey R0;
  set_text := settext;
  set_selected := set_selected R0;
  press := press R0;
  LockSessionUI := lock;
  UnlockSessionUI := unlock;
|}.

Definition refuse {W} (msg : string) (w : W) : result unit * W :=
  (Raise (ComError msg), w).

(** A report screen: selection fields BUKRS (under [ctxt]) and GJAHR (under
    [txt]); after execute a Success status with a text and, at the first of
    the known grid paths, a grid of three rows and two columns, every cell
    readable. *)
Definition report_cell (row : Z) (col : string) : result string :=
  Ok (col ++ "-" ++ pretty row).

Definition report_grid : string := "wnd[0]/usr/cntlRESULT_LIST/shellcont/shell".

Definition report : Mock.config := {|
  Mock.ids := ["wnd[0]"; "wnd[0]/sbar"; "wnd[0]/usr/ctxtGD-TAB";
               "wnd[0]/usr/tblSAPLSE16HFIELDS_TABLE/ctxtGS_FIELDS-FIELDNAME[0,0]";
               "wnd[0]/usr/tblSAPLSE16HFIELDS_TABLE/ctxtGS_FIELDS-FIELDNAME[0,1]";
               "wnd[0]/usr/tblSAPLSE16HFIELDS_TABLE/chkGS_FIELDS-AGGR[4,0]";
               "wnd[0]/usr/tblT/ctxtMATNR[0,3]"; "wnd[0]/usr/tblT/txtMAKTX[0,3]";
               report_grid];
  Mock.names := [("BUKRS", "ctxt"); ("GJAHR", "txt"); ("NOTE", "lbl")];
  Mock.press_raises := [];
  Mock.status_text := "3 items displayed";
  Mock.status_type := "S";
  Mock.grid_id := report_grid;
  Mock.row_count := 3;
  Mock.column_order := ["BUKRS"; "BELNR"];
  Mock.cell := report_cell;
|}.

(** A screen after execute with a Warning status and no results grid; the
    status bar is there, the SE16H field table is not. *)
Definition no_grid : Mock.config := {|
  Mock.ids := ["wnd[0]"; "wnd[0]/sbar"; "wnd[0]/usr/ctxtGD-TAB"];
  Mock.names := [("BUKRS", "ctxt")];
  Mock.press_raises := [];
  Mock.status_text := "No data selected";
  Mock.status_type := "W";
  Mock.grid_id := "wnd[0]/usr/cntlGRID/shellcont/shell";
  Mock.row_count := 0;
  Mock.column_order := [];
  Mock.cell := fun _ _ => Raise Mock.not_found;
|}.

(** A screen without a status bar. *)
Definition no_sbar : Mock.config := {|
  Mock.ids := ["wnd[0]"; "wnd[0]/usr/ctxtGD-TAB"];
  Mock.names := [];
  Mock.press_raises := [];
  Mock.status_text := "";
  Mock.status_type := "";
  Mock.grid_id := "wnd[0]/usr/cntlGRID/shellcont/shell";
  Mock.row_count := 0;
  Mock.column_order := [];
  Mock.cell := fun _ _ => Raise Mock.not_found;
|}.

(** Field texts of [report]: the [txt] field reads, the [ctxt] and [lbl]
    fields do not; table cell MATNR reads under [ctxt], MAKTX under [txt]. *)
Definition report_text (h : string) : result string :=
  if (h =? "wnd[0]/usr/txtGJAHR")%string then Ok "2024"
  else if (h =? "wnd[0]/usr/tblT/ctxtMATNR[0,3]")%string then Ok "M-01"
  else if (h =? "wnd[0]/usr/tblT/txtMAKTX[0,3]")%string then Ok "Pump"
  else Raise (ComError "no such property").

(** [report] with those texts, read-only input fields, a refusing
    [StartTransaction] and a lock that can be taken but not released. *)
Definition hostile : Remote :=
  patch (Mock.remote report)
    (fun w _ => refuse "Transaction does not exist" w)
    (fun _ h => report_text h)
    (fun w _ _ => refuse "The control is read-only" w)
    (fun w => (Ok tt, w))
    (refuse "Session is busy").

(** [report] with a lock that cannot be taken. *)
Definition lock_refused : Remote :=
  patch (Mock.remote report)
    (StartTransaction (Mock.remote report))
    (Text (Mock.remote report))
    (set_text (Mock.remote report))
    (refuse "Session is busy")
    (UnlockSessionUI (Mock.remote report)).

Definition hostile_start : state hostile :=
  mkState (R := hostile)
    {| Mock.popup_open := false; Mock.ui_locked := false;
       Mock.unlock_calls := 0 |} [].

Definition lock_refused_start : state lock_refused :=
  mkState (R := lock_refused)
    {| Mock.popup_open := false; Mock.ui_locked := false;
       Mock.unlock_calls := 0 |} [].

(** Field configurations for [run_se16h] against [report]: BUKRS grouped,
    BELNR plain with a selection value that cannot be set there. *)
Definition report_fields : list field_cfg :=
  [ {| fc_name := "BUKRS"; fc_group := Some true; fc_sum := None;
       fc_value := None |};
    {| fc_name := "BELNR"; fc_group := None; fc_sum := Some false;
       fc_value := Some "1900000001" |} ].

(** ** Further vocabulary *)

(** The first of [ftypes] under which the name resolves. *)
Fixpoint first_resolved (R : Remote) (w : World R) (name : string)
    (ftypes : list string) : option (Handle R) :=
  match ftypes with
  | [] => None
  | ftype :: rest =>
      match findByName R w name ftype with
      | Ok h => Some h
      | Raise _ => first_resolved R w name rest
      end
  end.

(** Looking a field up under one type and reading its text. *)
Definition readable (R : Remote) (w : World R) (name ftype : string)
  : result string :=
  match findByName R w name ftype with
  | Ok h => Text R w h
  | Raise e => Raise e
  end.

(** Resolving an address and reading the text of the control there. *)
Definition text_at (R : Remote) (w : World R) (id : string) : result string :=
  match findById R w id with
  | Ok h => Text R w h
  | Raise e => Raise e
  end.

(** The title of a column, or its identifier when the title cannot be
    read. *)
Definition title_or_id {R} (I : Introspection R) (w : World R)
    (grid : Handle R) (col : string) : string :=
  match GetDisplayedColumnTitle I w grid col with
  | Ok title => title
  | Raise _ => col
  end.

(** A scripted screen for the explorer: the widgets by address, each with
    its properties as the object model would give or refuse them. *)
Module Screen.
Record widget : Type := {
  address : string;
  type_name : result string;
  name : string;
  text : result string;
  changeable : result bool;
  container : result bool;
  children : list string;
}.

Fixpoint lookup (ws : list widget) (h : string) : option widget :=
  match ws with
  | [] => None
  | x :: rest => if (address x =? h)%string then Some x else lookup rest h
  end.

Definition on_widget {A} (ws : list widget) (h : string)
    (f : widget -> result A) : result A :=
  match lookup ws h with
  | Some x => f x
  | None => Raise Mock.not_found
  end.

Definition collection_of (hs : list string) : components string :=
  {| CCount := Z.of_nat (length hs);
     CItem := fun i => match hs !! Z.to_nat i with
                       | Some c => Ok c
                       | None => Raise (ComError "index out of range")
                       end |}.

(** The container [wnd[0]/usr] and a grid with the columns ["V"], ["K"]. *)
Definition panel : Mock.config := {|
  Mock.ids := ["wnd[0]/usr"; "wnd[0]/usr/cntlGRID1/shellcont/shell"];
  Mock.names := [];
  Mock.press_raises := [];
  Mock.status_text := "";
  Mock.status_type := "";
  Mock.grid_id := "wnd[0]/usr/cntlGRID1/shellcont/shell";
  Mock.row_count := 0;
  Mock.column_order := ["V"; "K"];
  Mock.cell := fun _ _ => Raise Mock.not_found;
|}.

Definition remote (ws : list widget) : Remote :=
  patch (Mock.remote panel)
    (StartTransaction (Mock.remote panel))
    (fun _ h => on_widget ws h text)
    (set_text (Mock.remote panel))
    (LockSessionUI (Mock.remote panel))
    (UnlockSessionUI (Mock.remote panel)).

(** Column ["V"] has a displayed title, column ["K"] has none to read. *)
Definition introspection (ws : list widget) : Introspection (remote ws) :=
  Build_Introspection (remote ws)
    (fun _ (h : string) =>
       on_widget ws h (fun x => Ok (collection_of (children x))))
    (fun _ (h : string) => on_widget ws h (fun x => Ok (address x)))
    (fun _ (h : string) => on_widget ws h type_name)
    (fun _ (h : string) => on_widget ws h (fun x => Ok (name x)))
    (fun _ (h : string) => on_widget ws h changeable)
    (fun _ (h : string) => on_widget ws h container)
    (fun _ _ col =>
       if (col =? "V")%string then Ok "Value" else Raise (ComError "no title")).

Definition start (ws : list widget) : state (remote ws) :=
  mkState (R := remote ws)
    {| Mock.popup_open := false; Mock.ui_locked := false;
       Mock.unlock_calls := 0 |} [].

Definition leaf (addr ty nm : string) (txt : result string)
    (chg : result bool) : widget :=
  {| address := addr; type_name := Ok ty; name := nm; text := txt;
     changeable := chg; container := Ok false; children := [] |}.

(** An input field, a label without text or editability, and a container
    holding a text field and a further container; the further container's
    button lies two levels below the user area. *)
Definition form : list widget :=
  [ {| address := "wnd[0]/usr"; type_name := Ok "GuiUserArea"; name := "usr";
       text := Ok ""; changeable := Ok false; container := Ok true;
       children := ["wnd[0]/usr/ctxtBUKRS"; "wnd[0]/usr/lblINFO";
                    "wnd[0]/usr/subAREA"] |};
    leaf "wnd[0]/usr/ctxtBUKRS" "GuiCTextField" "BUKRS" (Ok "1000") (Ok true);
    leaf "wnd[0]/usr/lblINFO" "GuiLabel" "INFO"
      (Raise (ComError "no text")) (Raise (ComError "no such property"));
    {| address := "wnd[0]/usr/subAREA"; type_name := Ok "GuiSimpleContainer";
       name := "AREA"; text := Ok ""; changeable := Ok false;
       container := Ok true;
       children := ["wnd[0]/usr/subAREA/txtNOTE";
                    "wnd[0]/usr/subAREA/subDEEP"] |};
    leaf "wnd[0]/usr/subAREA/txtNOTE" "GuiTextField" "NOTE" (Ok "hello")
      (Ok true);
    {| address := "wnd[0]/usr/subAREA/subDEEP";
       type_name := Ok "GuiSimpleContainer"; name := "DEEP"; text := Ok "";
       changeable := Ok false; container := Ok true;
       children := ["wnd[0]/usr/subAREA/subDEEP/btnGO"] |};
    leaf "wnd[0]/usr/subAREA/subDEEP/btnGO" "GuiButton" "GO" (Ok "Go")
      (Ok true) ].

(** Three fields in a row, the type of the second one unreadable. *)
Definition broken : list widget :=
  [ {| address := "wnd[0]/usr"; type_name := Ok "GuiUserArea"; name := "usr";
       text := Ok ""; changeable := Ok false; container := Ok true;
       children := ["wnd[0]/usr/txtA"; "wnd[0]/usr/txtB"; "wnd[0]/usr/txtC"] |};
    leaf "wnd[0]/usr/txtA" "GuiTextField" "A" (Ok "a") (Ok true);
    {| address := "wnd[0]/usr/txtB"; type_name := Raise (ComError "stale");
       name := "B"; text := Ok "b"; changeable := Ok true;
       container := Ok false; children := [] |};
    leaf "wnd[0]/usr/txtC" "GuiTextField" "C" (Ok "c") (Ok true) ].
End Screen.

(** ** Vocabulary of the properties *)

(** What a cell contributes to its record. *)
Definition cell_or_empty (r : result string) : string :=
  match r with Ok v => v | Raise _ => "" end.

(** The collection [co] enumerates exactly the identifiers [cols]. *)
Definition lists_columns (co : collection) (cols : list string) : Prop :=
  Count co = Z.of_nat (length cols)
  /\ forall (i : nat) c, cols !! i = Some c -> Item co (Z.of_nat i) = Ok c.

(** The column list a read works with: the caller's, or the grid's own
    column order when the caller passes [None]. *)
Definition columns_resolve (R : Remote) (w : World R) (grid : Handle R)
    (columns : option (list string)) (cols : list string) : Prop :=
  match columns with
  | Some given => given = cols
  | None => exists co, ColumnOrder R w grid = Ok co /\ lists_columns co cols
  end.

Definition column_events {R} (grid : Handle R)
    (columns : option (list string)) : list (event R) :=
  match columns with
  | None => [EvColumnOrder grid]
  | Some _ => []
  end.

(** Cell fetches in row-major order. *)
Definition cell_events {R} (grid : Handle R) (cols : list string)
    (rows : list Z) : list (event R) :=
  flat_map (fun row => map (EvGetCellValue grid row) cols) rows.

(** The record of one row, as a function of the grid's cells. *)
Definition record_of (R : Remote) (w : World R) (grid : Handle R)
    (cols : list string) (row : Z) : gmap string string :=
  foldl (fun record col =>
           <[col := cell_or_empty (GetCellValue R w grid row col)]> record)
        ∅ cols.

(** The lookups [set_field]'s probe makes over [ftypes]: up to and including
    the first type that resolves. *)
Fixpoint attempts (R : Remote) (w : World R) (name : string)
    (ftypes : list string) : list string :=
  match ftypes with
  | [] => []
  | ftype :: rest =>
      ftype :: (if is_ok (findByName R w name ftype) then []
                else attempts R w name rest)
  end.

(** A program only ever adds to the observed trace. *)
Definition extends {R A} (m : M R A) : Prop :=
  forall s, trace s `prefix_of` trace (snd (m s)).

(** The state right after [get_statusbar] has read the status bar [sbar]. *)
Definition after_status {R} (s : state R) (sbar : Handle R) : state R :=
  mkState (world s)
    (trace s ++ [EvFindById "wnd[0]/sbar"; EvText sbar; EvMessageType sbar]).

(** The Grid Reader at work: a probe of one of [find_grid]'s paths, or a read
    of a grid's column order, row count or cell. *)
Definition touches_grid {R} (ev : event R) : bool :=
  match ev with
  | EvFindById id => bool_decide (id ∈ SapSession.common_paths "wnd[0]/usr")
  | EvColumnOrder _ | EvRowCount _ | EvGetCellValue _ _ _ => true
  | _ => false
  end.

Definition grid_calls {R} (tr : list (event R)) : nat :=
  length (filter (fun ev => touches_grid ev = true) tr).

(** ** Vocabulary of the explorer's properties *)

(** The collection [col] enumerates exactly the handles [hs]. *)
Definition lists_components {H} (col : components H) (hs : list H) : Prop :=
  CCount col = Z.of_nat (length hs)
  /\ forall (i : nat) c, hs !! i = Some c -> CItem col (Z.of_nat i) = Ok c.

(** The three properties every record starts from; the first that cannot
    be read decides the exception. *)
Definition identity {R} (I : Introspection R) (w : World R) (c : Handle R)
  : result (gmap string pyval) :=
  match Id I w c with
  | Raise e => Raise e
  | Ok id =>
      match Type_ I w c with
      | Raise e => Raise e
      | Ok ty =>
          match Name I w c with
          | Raise e => Raise e
          | Ok name =>
              Ok (<["name" := VStr name]>
                    (<["type" := VStr ty]> (<["id" := VStr id]> ∅)))
          end
      end
  end.

(** The record of a sub-child: identity and text. *)
Definition sub_record {R} (I : Introspection R) (w : World R) (c : Handle R)
  : gmap string pyval :=
  match identity I w c with
  | Ok base => <["text" := VStr (cell_or_empty (Text R w c))]> base
  | Raise _ => ∅
  end.

(** The record of a child: identity, text and editability. *)
Definition child_record {R} (I : Introspection R) (w : World R)
    (c : Handle R) : gmap string pyval :=
  <["changeable" := match Changeable I w c with
                    | Ok b => VBool b
                    | Raise _ => VNone
                    end]> (sub_record I w c).

(** A child whose sub-children, if it is a container, are [subs] and can all
    be described; a child that is no container, or whose container flag or
    children cannot be read, has none. *)
Definition scannable {R} (I : Introspection R) (w : World R) (c : Handle R)
    (subs : list (Handle R)) : Prop :=
  is_ok (identity I w c) = true
  /\ match ContainerType I w c with
     | Ok true =>
         match Children I w c with
         | Ok col => lists_components col subs
                     /\ forall sc, sc ∈ subs -> is_ok (identity I w sc) = true
         | Raise _ => subs = []
         end
     | _ => subs = []
     end.

Definition is_str (o : option pyval) : Prop := exists v, o = Some (VStr v).

(** What every record of a scan carries. *)
Definition described (record : gmap string pyval) : Prop :=
  is_str (record !! "id") /\ is_str (record !! "type")
  /\ is_str (record !! "name") /\ is_str (record !! "text")
  /\ dom record ⊆ ({["id"; "type"; "name"; "text"; "changeable"]} : gset string).

(** Resolving the container and reading its children. *)
Definition container_children {R} (I : Introspection R) (w : World R)
    (container_id : string) : result (components (Handle R)) :=
  match findById R w container_id with
  | Ok container => Children I w container
  | Raise e => Raise e
  end.

(** The sub-children of the scripted form. *)
Definition form_subs (c : string) : list string :=
  if (c =? "wnd[0]/usr/subAREA")%string
  then ["wnd[0]/usr/subAREA/txtNOTE"; "wnd[0]/usr/subAREA/subDEEP"]
  else [].

(** ** Properties *)

(** What [dismiss] of [handle_popup] meets: the button does not resolve, or
    pressing it raises. *)
Definition dismiss_fails (R : Remote) (w : World R) (button_id : string)
  : bool :=
  match findById R w button_id with
  | Raise _ => true
  | Ok btn => negb (is_ok (fst (press R w btn)))
  end.

Definition is_unlock {R} (ev : event R) : bool :=
  match ev with EvUnlockSessionUI => true | _ => false end.

(** Number of [UnlockSessionUI] calls observed. *)
Definition unlocks {R} (tr : list (event R)) : nat :=
  length (filter (fun ev => is_unlock ev = true) tr).

Ltac unfold_monad :=
  unfold bind, ret, raise, try_except, try_finally, query, action, log, lift,
    emit in *.

Section Locator.
Context {R : Remote}.
Import SapSession.

Lemma find_by_id_found (s : state R) element_id raise_error h :
  findById R (world s) element_id = Ok h ->
  find_by_id element_id raise_error s
  = (Ok (Some h), emit (EvFindById element_id) s).
Proof.
  intros Hf. unfold find_by_id, session_findById. unfold_monad.
  now rewrite Hf.
Qed.

Lemma find_by_id_missing (s : state R) element_id raise_error e :
  findById R (world s) element_id = Raise e ->
  find_by_id element_id raise_error s
  = (if raise_error then Raise e else Ok None,
     emit (EvFindById element_id) s).
Proof.
  intros Hf. unfold find_by_id, session_findById. unfold_monad.
  rewrite Hf. now destruct raise_error.
Qed.

(** C5. Strict resolution returns the control at a present address and
    raises what the lookup raised on a miss; tolerant resolution returns the
    control when present and [None], without raising, on a miss. *)
Theorem find_by_id_strict_and_tolerant (s : state R) (element_id : string) :
  (forall h, findById R (world s) element_id = Ok h ->
     fst (find_by_id element_id true s) = Ok (Some h)
     /\ fst (find_by_id element_id false s) = Ok (Some h))
  /\ (forall e, findById R (world s) element_id = Raise e ->
        fst (find_by_id element_id true s) = Raise e
        /\ fst (find_by_id element_id false s) = Ok None).
Proof.
  split.
  - intros h Hf. now rewrite !(find_by_id_found _ _ _ h Hf).
  - intros e Hf. now rewrite !(find_by_id_missing _ _ _ e Hf).
Qed.
End Locator.

(** The scripted session resolves ["wnd[0]"] and misses ["wnd[0]/usr/nope"]. *)
Lemma find_by_id_strict_and_tolerant_witness :
  let s := Mock.start stuck_popup false in
  fst (SapSession.find_by_id "wnd[0]" true s) = Ok (Some "wnd[0]")
  /\ fst (SapSession.find_by_id "wnd[0]/usr/nope" true s) = Raise Mock.not_found
  /\ fst (SapSession.find_by_id "wnd[0]/usr/nope" false s) = Ok None.
Proof.
  intros s.
  destruct (find_by_id_strict_and_tolerant s "wnd[0]") as [Hp _].
  destruct (find_by_id_strict_and_tolerant s "wnd[0]/usr/nope") as [_ Ha].
  split; [apply (Hp "wnd[0]"); reflexivity |].
  apply (Ha Mock.not_found); reflexivity.
Defined.

Section PopupMonitor.
Context {R : Remote}.
Import SapSession.

Lemma press_dismiss_never_raises (s : state R) button_id :
  exists b s', press_dismiss button_id s = (Ok b, s').
Proof.
  unfold press_dismiss, session_findById. unfold_monad.
  destruct (findById R (world s) button_id) as [btn|e]; simpl; [|eauto].
  destruct (press R (world s) btn) as [[[]|e] w']; simpl; eauto.
Qed.

Lemma press_dismiss_failure (s : state R) button_id :
  dismiss_fails R (world s) button_id = true ->
  fst (press_dismiss button_id s) = Ok false.
Proof.
  unfold dismiss_fails, press_dismiss, session_findById. unfold_monad.
  destruct (findById R (world s) button_id) as [btn|e]; [|reflexivity].
  simpl. destruct (press R (world s) btn) as [[[]|e] w']; simpl; [|reflexivity].
  discriminate.
Qed.

Lemma handle_popup_never_raises (s : state R) button_id check_exists :
  exists b s', handle_popup button_id check_exists s = (Ok b, s').
Proof.
  unfold handle_popup. destruct check_exists.
  - unfold bind at 1.
    destruct (findById R (world s) "wnd[1]") as [p|e] eqn:Hp.
    + rewrite (find_by_id_found _ _ _ _ Hp). apply press_dismiss_never_raises.
    + rewrite (find_by_id_missing _ _ _ _ Hp). unfold ret. eauto.
  - apply press_dismiss_never_raises.
Qed.

(** C1, as the code has it. When the secondary window is confirmed present
    and the dismiss action fails, [handle_popup] swallows the failure and
    returns [False]; a failing existence check returns [False] as well; no
    call of [handle_popup] raises. *)
Theorem handle_popup_swallows_dismiss_failure
    (s : state R) (button_id : string) (popup : Handle R) :
  findById R (world s) "wnd[1]" = Ok popup ->
  dismiss_fails R (world s) button_id = true ->
  fst (handle_popup button_id true s) = Ok false
  /\ (forall (s0 : state R) e, findById R (world s0) "wnd[1]" = Raise e ->
        handle_popup button_id true s0
        = (Ok false, emit (EvFindById "wnd[1]") s0))
  /\ (forall (s0 : state R) b check_exists,
        is_ok (fst (handle_popup b check_exists s0)) = true).
Proof.
  intros Hp Hfail. split; [|split].
  - unfold handle_popup. unfold bind at 1.
    rewrite (find_by_id_found _ _ _ _ Hp).
    now apply press_dismiss_failure.
  - intros s0 e He. unfold handle_popup. unfold bind at 1.
    now rewrite (find_by_id_missing _ _ _ _ He).
  - intros s0 b c.
    destruct (handle_popup_never_raises s0 b c) as (r & s' & ->).
    reflexivity.
Qed.
End PopupMonitor.

(** C1, as the claim has it, fails: the popup of [stuck_popup] is present,
    pressing its dismiss button raises, and [handle_popup] returns [False]
    instead of raising. *)
Lemma handle_popup_dismiss_failure_not_raised :
  let R := Mock.remote stuck_popup in
  let s := Mock.start stuck_popup true in
  findById R (world s) "wnd[1]" = Ok "wnd[1]"
  /\ findById R (world s) "wnd[1]/tbar[0]/btn[0]" = Ok "wnd[1]/tbar[0]/btn[0]"
  /\ is_ok (fst (press R (world s) "wnd[1]/tbar[0]/btn[0]")) = false
  /\ fst (SapSession.handle_popup "wnd[1]/tbar[0]/btn[0]" true s) = Ok false
  /\ ~ (exists e,
          fst (SapSession.handle_popup "wnd[1]/tbar[0]/btn[0]" true s)
          = Raise e).
Proof.
  repeat split; try reflexivity.
  intros [e He]. vm_compute in He. discriminate He.
Qed.

Lemma handle_popup_swallows_dismiss_failure_witness :
  fst (SapSession.handle_popup "wnd[1]/tbar[0]/btn[0]" true
         (Mock.start stuck_popup true)) = Ok false.
Proof.
  apply (handle_popup_swallows_dismiss_failure
           (Mock.start stuck_popup true) "wnd[1]/tbar[0]/btn[0]" "wnd[1]");
    reflexivity.
Defined.

Section UiLock.
Context {R : Remote}.
Import SapSession.

Lemma unlocks_snoc (tr : list (event R)) :
  unlocks (tr ++ [EvUnlockSessionUI]) = S (unlocks tr).
Proof.
  unfold unlocks. rewrite filter_app, length_app. simpl. lia.
Qed.

(** C6. Once the lock is taken and the protected block has run, however it
    exits, [locked] makes exactly one [UnlockSessionUI] call after the block
    and nothing else; the block's outcome, value or exception, is handed on
    when the unlock itself succeeds. *)
Theorem locked_unlocks_exactly_once {A} (body : M R A)
    (s s1 s2 : state R) (r : result A) :
  lock_ui s = (Ok tt, s1) ->
  body s1 = (r, s2) ->
  trace (snd (locked body s)) = (trace s2 ++ [EvUnlockSessionUI])%list
  /\ unlocks (trace (snd (locked body s))) = S (unlocks (trace s2))
  /\ world (snd (locked body s)) = snd (UnlockSessionUI R (world s2))
  /\ (fst (UnlockSessionUI R (world s2)) = Ok tt ->
      fst (locked body s) = r).
Proof.
  intros Hlock Hbody.
  assert (Hrun : locked body s
                 = (match fst (UnlockSessionUI R (world s2)) with
                    | Ok _ => r
                    | Raise e => Raise e
                    end,
                    mkState (snd (UnlockSessionUI R (world s2)))
                            (trace s2 ++ [EvUnlockSessionUI]))).
  { unfold locked. unfold bind. rewrite Hlock.
    unfold try_finally. rewrite Hbody.
    unfold unlock_ui, action.
    destruct (UnlockSessionUI R (world s2)) as [[[]|e] w']; reflexivity. }
  rewrite Hrun. simpl. repeat split.
  - apply unlocks_snoc.
  - intros ->. reflexivity.
Qed.
End UiLock.

(** A protected block that raises, and one that completes. *)
Lemma locked_unlocks_exactly_once_witness :
  let s := Mock.start stuck_popup false in
  let failing : M (Mock.remote stuck_popup) unit :=
    SapSession.set_field "BUKRS" "1000" "" in
  fst (SapSession.locked failing s)
  = Raise (ValueError "Field 'BUKRS' not found as ctxt/txt/cmb")
  /\ unlocks (trace (snd (SapSession.locked failing s))) = 1%nat
  /\ Mock.unlock_calls (world (snd (SapSession.locked failing s))) = 1%nat
  /\ unlocks (trace (snd (SapSession.locked (ret 7) s))) = 1%nat.
Proof.
  intros s failing.
  destruct (locked_unlocks_exactly_once failing s
              (snd (SapSession.lock_ui s)) (snd (failing (snd (SapSession.lock_ui s))))
              (fst (failing (snd (SapSession.lock_ui s)))) eq_refl eq_refl)
    as (_ & Hn & _ & Hr).
  destruct (locked_unlocks_exactly_once (ret 7) s
              (snd (SapSession.lock_ui s)) (snd (SapSession.lock_ui s))
              (Ok 7) eq_refl eq_refl)
    as (_ & Hn' & _ & _).
  split; [rewrite (Hr eq_refl); reflexivity |].
  split; [rewrite Hn; reflexivity |].
  split; [reflexivity |].
  rewrite Hn'; reflexivity.
Defined.

Section GridReader.
Context {R : Remote}.
Import SapSession.

Lemma state_eta (s : state R) : mkState (world s) (trace s ++ []) = s.
Proof. destruct s. simpl. now rewrite app_nil_r. Qed.

Lemma py_range_of_nat (n : nat) :
  py_range (Z.of_nat n) = map Z.of_nat (seq 0 n).
Proof. unfold py_range. now rewrite Nat2Z.id. Qed.

Lemma length_py_range (n : Z) : length (py_range n) = Z.to_nat n.
Proof. unfold py_range. now rewrite length_map, length_seq. Qed.

Lemma lookup_py_range (n : Z) (i : nat) (row : Z) :
  py_range n !! i = Some row -> row = Z.of_nat i /\ (0 <= row < n)%Z.
Proof.
  unfold py_range. rewrite list_lookup_fmap.
  destruct (seq 0 (Z.to_nat n) !! i) as [k|] eqn:Hk; [|discriminate].
  apply lookup_seq in Hk as [-> Hlt]. simpl. intros [= <-]. lia.
Qed.

Lemma elem_of_py_range (n row : Z) :
  row ∈ py_range n <-> (0 <= row < n)%Z.
Proof.
  unfold py_range. rewrite list_elem_of_fmap. split.
  - intros (k & -> & Hk). apply elem_of_seq in Hk. lia.
  - intros Hr. exists (Z.to_nat row). split; [lia|].
    apply elem_of_seq. lia.
Qed.

(** The inner loop over the columns of one row. *)
Lemma read_row_from (grid : Handle R) (row : Z) (cols : list string)
    (record : gmap string string) (s : state R) :
  for_fold (read_cell grid row) record cols s
  = (Ok (foldl (fun rec col =>
                  <[col := cell_or_empty
                             (GetCellValue R (world s) grid row col)]> rec)
               record cols),
     mkState (world s) (trace s ++ map (EvGetCellValue grid row) cols)).
Proof.
  revert record s. induction cols as [|col cols IH]; intros record s.
  - simpl. unfold ret. now rewrite state_eta.
  - simpl. unfold bind at 1. unfold read_cell at 1, grid_get_cell.
    unfold_monad.
    destruct (GetCellValue R (world s) grid row col) as [v|e] eqn:Hc;
      rewrite IH; simpl; now rewrite <- app_assoc.
Qed.

Lemma read_row_run (grid : Handle R) (row : Z) (cols : list string)
    (s : state R) :
  read_row grid cols row s
  = (Ok (record_of R (world s) grid cols row),
     mkState (world s) (trace s ++ map (EvGetCellValue grid row) cols)).
Proof. apply read_row_from. Qed.

(** The outer loop over the rows. *)
Lemma read_rows_run (grid : Handle R) (cols : list string) (rows : list Z)
    (s : state R) :
  for_list (read_row grid cols) rows s
  = (Ok (map (record_of R (world s) grid cols) rows),
     mkState (world s) (trace s ++ cell_events grid cols rows)).
Proof.
  revert s. induction rows as [|row rows IH]; intros s.
  - simpl. unfold ret. now rewrite state_eta.
  - simpl. unfold bind at 1. rewrite read_row_run.
    unfold bind at 1. rewrite IH. simpl. unfold ret.
    now rewrite <- app_assoc.
Qed.

Lemma collection_items (co : collection) (cols : list string) (k : nat)
    (s : state R) :
  (forall (i : nat) c, cols !! i = Some c ->
     Item co (Z.of_nat (k + i)) = Ok c) ->
  for_list (fun i => lift (Item co i)) (map Z.of_nat (seq k (length cols))) s
  = (Ok cols, s).
Proof.
  revert k. induction cols as [|c cols IH]; intros k Hitems; [reflexivity|].
  simpl. unfold bind at 1. unfold lift at 1.
  rewrite <- (Nat.add_0_r k) at 1. rewrite (Hitems 0%nat c eq_refl).
  unfold bind at 1. rewrite IH.
  - reflexivity.
  - intros i c' Hi. replace (S k + i)%nat with (k + S i)%nat by lia.
    now apply Hitems.
Qed.

Lemma grid_get_columns_run (grid : Handle R) (co : collection)
    (cols : list string) (s : state R) :
  ColumnOrder R (world s) grid = Ok co ->
  lists_columns co cols ->
  grid_get_columns grid s = (Ok cols, emit (EvColumnOrder grid) s).
Proof.
  intros Hco [Hcount Hitems]. unfold grid_get_columns.
  unfold bind at 1. unfold query. rewrite Hco, Hcount, py_range_of_nat.
  now apply collection_items.
Qed.

(** The whole of [grid_read_all] on a grid whose row count reads [n]. *)
Lemma grid_read_all_run (grid : Handle R) (columns : option (list string))
    (cols : list string) (max_rows n : Z) (s : state R) :
  RowCount R (world s) grid = Ok n ->
  columns_resolve R (world s) grid columns cols ->
  let total := if (0 <? max_rows)%Z then Z.min n max_rows else n in
  grid_read_all grid columns max_rows s
  = (Ok (map (record_of R (world s) grid cols) (py_range total)),
     mkState (world s)
       (trace s ++ column_events grid columns ++ [EvRowCount grid]
        ++ cell_events grid cols (py_range total)
        ++ [EvLog INFO ("Grid read: " ++ pretty total ++ " rows "
                        ++ times_sign ++ " " ++ pretty (length cols)
                        ++ " columns")])).
Proof.
  intros Hn Hcols total. unfold grid_read_all.
  assert (Hresolved :
    (match columns with
     | None => grid_get_columns grid
     | Some given => ret given
     end) s
    = (Ok cols, mkState (world s) (trace s ++ column_events grid columns))).
  { destruct columns as [given|]; simpl in Hcols.
    - subst given. unfold ret. simpl. now rewrite state_eta.
    - destruct Hcols as (co & Hco & Hl).
      now rewrite (grid_get_columns_run grid co cols s Hco Hl). }
  unfold bind at 1. rewrite Hresolved.
  unfold bind at 1. unfold query at 1. simpl. rewrite Hn.
  fold total. unfold bind at 1. rewrite read_rows_run. simpl.
  unfold_monad. simpl. f_equal. f_equal.
  rewrite <- !app_assoc. reflexivity.
Qed.

Lemma record_of_lookup (w : World R) (grid : Handle R) (cols : list string)
    (row : Z) (c : string) :
  record_of R w grid cols row !! c
  = if decide (c ∈ cols)
    then Some (cell_or_empty (GetCellValue R w grid row c)) else None.
Proof.
  unfold record_of.
  assert (Hgen : forall (m : gmap string string),
    foldl (fun record col =>
             <[col := cell_or_empty (GetCellValue R w grid row col)]> record)
          m cols !! c
    = if decide (c ∈ cols)
      then Some (cell_or_empty (GetCellValue R w grid row c)) else m !! c).
  { induction cols as [|col cols IH]; intros m; cbn [foldl].
    - destruct (decide (c ∈ [])) as [Hin|_]; [|reflexivity].
      now apply not_elem_of_nil in Hin.
    - rewrite IH. destruct (decide (c ∈ cols)) as [Hin|Hnin].
      + destruct (decide (c ∈ col :: cols)) as [_|Hn]; [reflexivity|].
        exfalso. apply Hn. now right.
      + destruct (decide (c = col)) as [->|Hne].
        * destruct (decide (col ∈ col :: cols)) as [_|Hn];
            [apply lookup_insert_eq | exfalso; apply Hn; left].
        * destruct (decide (c ∈ col :: cols)) as [Hc|_].
          -- apply elem_of_cons in Hc. tauto.
          -- now apply lookup_insert_ne. }
  rewrite Hgen. now rewrite lookup_empty.
Qed.

Lemma record_of_dom (w : World R) (grid : Handle R) (cols : list string)
    (row : Z) :
  dom (record_of R w grid cols row) = list_to_set cols.
Proof.
  apply set_eq. intros c. rewrite elem_of_dom, record_of_lookup.
  rewrite elem_of_list_to_set.
  destruct (decide (c ∈ cols)); split; intros H; done.
Qed.

Lemma record_of_size (w : World R) (grid : Handle R) (cols : list string)
    (row : Z) :
  NoDup cols -> size (record_of R w grid cols row) = length cols.
Proof.
  intros Hnd. rewrite <- size_dom, record_of_dom.
  now apply size_list_to_set.
Qed.
End GridReader.

Section GridReaderClaims.
Context {R : Remote}.
Import SapSession.

(** C3. On a grid of [N] rows read with the column list [cols], and no
    max-rows cap cutting in, [grid_read_all] returns [N] records in row
    order; the keys of each record are exactly the identifiers of [cols]
    (as many as [cols] is long, the identifiers being distinct); a cell whose
    read raises contributes [""] under its key and the other cells of the row
    their values, so a column whose reads always raise maps to [""] in each
    of the [N] records. *)
Theorem grid_read_all_rows_and_keys (grid : Handle R)
    (columns : option (list string)) (cols : list string) (N : nat)
    (max_rows : Z) (s : state R) :
  RowCount R (world s) grid = Ok (Z.of_nat N) ->
  columns_resolve R (world s) grid columns cols ->
  (max_rows <= 0 \/ Z.of_nat N <= max_rows)%Z ->
  exists data s',
    grid_read_all grid columns max_rows s = (Ok data, s')
    /\ length data = N
    /\ forall (i : nat) (record : gmap string string),
         data !! i = Some record ->
         dom record = list_to_set cols
         /\ (NoDup cols -> size record = length cols)
         /\ (forall c, c ∈ cols ->
               record !! c
               = Some (cell_or_empty
                         (GetCellValue R (world s) grid (Z.of_nat i) c)))
         /\ (forall K, K ∈ cols ->
               (forall row,
                  is_ok (GetCellValue R (world s) grid row K) = false) ->
               record !! K = Some "").
Proof.
  intros Hn Hcols Hcap.
  pose proof (grid_read_all_run grid columns cols max_rows _ s Hn Hcols)
    as Hrun.
  cbv zeta in Hrun.
  replace (if (0 <? max_rows)%Z
           then Z.min (Z.of_nat N) max_rows else Z.of_nat N)
    with (Z.of_nat N) in Hrun
    by (destruct (Z.ltb_spec 0 max_rows); lia).
  eexists _, _. split; [exact Hrun|]. split.
  - now rewrite length_map, length_py_range, Nat2Z.id.
  - intros i record Hi. rewrite list_lookup_fmap in Hi.
    destruct (py_range (Z.of_nat N) !! i) as [row|] eqn:Hrow; [|discriminate].
    apply lookup_py_range in Hrow as [-> _]. simpl in Hi.
    injection Hi as <-.
    split; [apply record_of_dom|].
    split; [apply record_of_size|].
    split.
    + intros c Hc. rewrite record_of_lookup. now rewrite decide_True.
    + intros K HK Hfail. rewrite record_of_lookup, decide_True by done.
      specialize (Hfail (Z.of_nat i)).
      now destruct (GetCellValue R (world s) grid (Z.of_nat i) K).
Qed.

(** C7. On a grid whose row count is [row_count], [grid_read_all] reads
    [min(row_count, max_rows)] rows when [max_rows > 0] and [row_count] rows
    when [max_rows = 0]; what it does, in order: the column identifiers are
    enumerated (when the caller gave none), the row count is read, then the
    cells are fetched row by row over that one column list, and the summary
    is logged. *)
Theorem grid_read_all_row_cap (grid : Handle R)
    (columns : option (list string)) (cols : list string)
    (row_count max_rows : Z) (s : state R) :
  RowCount R (world s) grid = Ok row_count ->
  (0 <= row_count)%Z ->
  columns_resolve R (world s) grid columns cols ->
  exists data s' (read : Z),
    grid_read_all grid columns max_rows s = (Ok data, s')
    /\ Z.of_nat (length data) = read
    /\ ((0 < max_rows)%Z -> read = Z.min row_count max_rows)
    /\ (max_rows = 0%Z -> read = row_count)
    /\ exists msg,
         trace s'
         = (trace s ++ column_events grid columns ++ [EvRowCount grid]
            ++ cell_events grid cols (py_range read)
            ++ [EvLog INFO msg])%list.
Proof.
  intros Hn Hpos Hcols.
  pose proof (grid_read_all_run grid columns cols max_rows _ s Hn Hcols)
    as Hrun.
  cbv zeta in Hrun.
  set (total := if (0 <? max_rows)%Z
                then Z.min row_count max_rows else row_count) in *.
  assert (Htotal : (0 <= total)%Z)
    by (unfold total; destruct (Z.ltb_spec 0 max_rows); lia).
  eexists _, _, total. split; [exact Hrun|].
  split; [rewrite length_map, length_py_range; lia|].
  split; [intros Hm; unfold total; destruct (Z.ltb_spec 0 max_rows); lia|].
  split; [intros ->; reflexivity|].
  eexists. reflexivity.
Qed.
End GridReaderClaims.

Lemma demo_columns :
  columns_resolve (Mock.remote demo) (world (Mock.start demo false))
    demo_grid None ["V"; "K"].
Proof.
  exists (Mock.mock_ColumnOrder demo). split; [reflexivity|].
  split; [reflexivity|].
  intros [|[|[|i]]] c Hc; simpl in Hc; try discriminate;
    injection Hc as <-; reflexivity.
Defined.

(** Four rows, two columns, column ["K"] unreadable throughout. *)
Lemma grid_read_all_rows_and_keys_witness :
  exists data,
    fst (SapSession.grid_read_all (R := Mock.remote demo) demo_grid None 0
           (Mock.start demo false)) = Ok data
    /\ length data = 4%nat
    /\ forall (i : nat) record, data !! i = Some record ->
         size record = 2%nat /\ record !! "K" = Some "".
Proof.
  destruct (grid_read_all_rows_and_keys (R := Mock.remote demo) demo_grid
              None ["V"; "K"] 4 0 (Mock.start demo false)
              eq_refl demo_columns ltac:(lia))
    as (data & s' & Hrun & Hlen & Hrec).
  exists data. rewrite Hrun. split; [reflexivity|]. split; [exact Hlen|].
  intros i record Hi. destruct (Hrec i record Hi) as (_ & Hsize & _ & HK).
  split.
  - apply Hsize. apply NoDup_cons. split; [|apply NoDup_singleton].
    intros Hin. apply list_elem_of_singleton in Hin. discriminate Hin.
  - apply HK; [right; left | reflexivity].
Defined.

(** A cap of three on the grid of four rows. *)
Lemma grid_read_all_row_cap_witness :
  exists data,
    fst (SapSession.grid_read_all (R := Mock.remote demo) demo_grid None 3
           (Mock.start demo false)) = Ok data
    /\ length data = 3%nat.
Proof.
  destruct (grid_read_all_row_cap (R := Mock.remote demo) demo_grid
              None ["V"; "K"] 4 3 (Mock.start demo false)
              eq_refl ltac:(lia) demo_columns)
    as (data & s' & read & Hrun & Hlen & Hcap & _).
  exists data. rewrite Hrun. split; [reflexivity|].
  specialize (Hcap ltac:(lia)). lia.
Defined.

Section DistinctValues.
Context {R : Remote}.
Import SapSession.

Lemma sorted_elem_of (values : gset string) (v : string) :
  v ∈ sorted values <-> v ∈ values.
Proof.
  unfold sorted. rewrite merge_sort_Permutation. apply elem_of_elements.
Qed.

Lemma sorted_NoDup (values : gset string) : NoDup (sorted values).
Proof.
  unfold sorted. rewrite merge_sort_Permutation. apply NoDup_elements.
Qed.

Lemma sorted_ascending (values : gset string) :
  StronglySorted String.le (sorted values).
Proof. unfold sorted. apply StronglySorted_merge_sort; apply _. Qed.

(** The loop of [grid_get_distinct] when every cell of the column reads. *)
Lemma distinct_loop_ok (grid : Handle R) (column : string) (vals : Z -> string)
    (rows : list Z) (acc : gset string) (s : state R) :
  (forall row, row ∈ rows ->
     GetCellValue R (world s) grid row column = Ok (vals row)) ->
  for_fold (distinct_step grid column) acc rows s
  = (Ok (list_to_set (map strip (map vals rows)) ∪ acc),
     mkState (world s)
       (trace s ++ map (fun row => EvGetCellValue grid row column) rows)).
Proof.
  revert acc s. induction rows as [|row rows IH]; intros acc s Hall.
  - simpl. unfold ret. rewrite state_eta. f_equal. f_equal.
    now rewrite (left_id_L ∅ (∪)).
  - simpl. unfold bind at 1. unfold distinct_step at 1, grid_get_cell.
    unfold_monad. rewrite (Hall row) by left.
    rewrite IH by (intros r Hr; simpl; apply Hall; now right).
    simpl. rewrite <- app_assoc. simpl. f_equal. f_equal.
    rewrite (assoc_L (∪)). f_equal. apply (comm_L (∪)).
Qed.

(** The loop stops at the first cell whose read raises. *)
Lemma distinct_loop_raises (grid : Handle R) (column : string)
    (rows : list Z) (acc : gset string) (s : state R) (row : Z) (e : exn) :
  row ∈ rows ->
  GetCellValue R (world s) grid row column = Raise e ->
  exists row0 e0 s',
    row0 ∈ rows
    /\ GetCellValue R (world s) grid row0 column = Raise e0
    /\ world s' = world s
    /\ for_fold (distinct_step grid column) acc rows s = (Raise e0, s').
Proof.
  revert acc s. induction rows as [|r rows IH]; intros acc s Hin Hfail.
  - now apply not_elem_of_nil in Hin.
  - simpl. unfold bind at 1. unfold distinct_step at 1, grid_get_cell.
    unfold_monad.
    destruct (GetCellValue R (world s) grid r column) as [v|e1] eqn:Hr.
    + apply elem_of_cons in Hin as [->|Hin]; [congruence|].
      destruct (IH ({[strip v]} ∪ acc)
                  (mkState (world s)
                     (trace s ++ [EvGetCellValue grid r column]))
                  Hin Hfail)
        as (row0 & e0 & s' & Hin0 & Hf0 & Hw & Hrun).
      exists row0, e0, s'. repeat split; auto. now right.
    + exists r, e1,
        (mkState (world s) (trace s ++ [EvGetCellValue grid r column])).
      repeat split; auto. now left.
Qed.

(** C4. On a grid whose cells of the column all read, [grid_get_distinct]
    returns the column's values over all rows, each trimmed of surrounding
    whitespace, without duplicates and in ascending order; the values
    ["A "], ["A"], [" A"], ["B"] give [["A"; "B"]]. *)
Theorem grid_get_distinct_trimmed_sorted (grid : Handle R) (column : string)
    (n : Z) (vals : Z -> string) (s : state R) :
  RowCount R (world s) grid = Ok n ->
  (forall row, (0 <= row < n)%Z ->
     GetCellValue R (world s) grid row column = Ok (vals row)) ->
  exists l s',
    grid_get_distinct grid column s = (Ok l, s')
    /\ (forall v, v ∈ l <->
          exists row, (0 <= row < n)%Z /\ v = strip (vals row))
    /\ NoDup l
    /\ StronglySorted String.le l
    /\ (map vals (py_range n) = ["A "; "A"; " A"; "B"] -> l = ["A"; "B"]).
Proof.
  intros Hn Hcells.
  assert (Hrun : grid_get_distinct grid column s
    = (Ok (sorted (list_to_set (map strip (map vals (py_range n))) ∪ ∅)),
       mkState (world s)
         ((trace s ++ [EvRowCount grid])
          ++ map (fun row => EvGetCellValue grid row column) (py_range n)))).
  { unfold grid_get_distinct. unfold bind at 1. unfold query at 1.
    rewrite Hn. unfold bind at 1.
    rewrite (distinct_loop_ok grid column vals)
      by (intros row Hr; apply Hcells; now apply elem_of_py_range).
    reflexivity. }
  eexists _, _. split; [exact Hrun|].
  split; [|split; [apply sorted_NoDup|split; [apply sorted_ascending|]]].
  - intros v. rewrite sorted_elem_of, elem_of_union, elem_of_list_to_set.
    rewrite list_elem_of_fmap. split.
    + intros [(x & -> & Hx)|Hemp]; [|now apply not_elem_of_empty in Hemp].
      apply list_elem_of_fmap in Hx as (row & -> & Hrow).
      exists row. split; [now apply elem_of_py_range | reflexivity].
    + intros (row & Hrow & ->). left. exists (vals row).
      split; [reflexivity|]. apply list_elem_of_fmap. exists row.
      split; [reflexivity | now apply elem_of_py_range].
  - intros ->. vm_compute. reflexivity.
Qed.

(** C10. When the read of some cell of the requested column raises,
    [grid_get_distinct] raises: the caller gets the exception of a failing
    cell of that column, where [grid_read_all] over the same column returns
    its rows with [""] in that cell. *)
Theorem grid_get_distinct_propagates (grid : Handle R) (column : string)
    (n row : Z) (e : exn) (s : state R) :
  RowCount R (world s) grid = Ok n ->
  (0 <= row < n)%Z ->
  GetCellValue R (world s) grid row column = Raise e ->
  (exists row0 e0 s',
     (0 <= row0 < n)%Z
     /\ GetCellValue R (world s) grid row0 column = Raise e0
     /\ grid_get_distinct grid column s = (Raise e0, s'))
  /\ (exists data s' record,
        grid_read_all grid (Some [column]) 0 s = (Ok data, s')
        /\ data !! Z.to_nat row = Some record
        /\ record !! column = Some "").
Proof.
  intros Hn Hrow Hfail. split.
  - destruct (distinct_loop_raises grid column (py_range n) ∅
                (mkState (world s) (trace s ++ [EvRowCount grid])) row e)
      as (row0 & e0 & s' & Hin0 & Hf0 & _ & Hrun);
      [now apply elem_of_py_range | exact Hfail |].
    exists row0, e0, s'. split; [now apply elem_of_py_range|].
    split; [exact Hf0|].
    unfold grid_get_distinct. unfold bind at 1. unfold query at 1.
    rewrite Hn. unfold bind at 1. unfold emit. now rewrite Hrun.
  - pose proof (grid_read_all_run grid (Some [column]) [column] 0 n s Hn
                  eq_refl) as Hrun.
    cbv zeta in Hrun. change (0 <? 0)%Z with false in Hrun.
    eexists _, _, (record_of R (world s) grid [column] row).
    split; [exact Hrun|]. split.
    + rewrite list_lookup_fmap.
      assert (Hlookup : py_range n !! Z.to_nat row = Some row).
      { unfold py_range. rewrite list_lookup_fmap.
        rewrite (lookup_seq_lt 0 (Z.to_nat n) (Z.to_nat row)) by lia.
        simpl. f_equal. lia. }
      now rewrite Hlookup.
    + rewrite record_of_lookup.
      destruct (decide (column ∈ [column])) as [_|Hn']; [now rewrite Hfail|].
      exfalso. apply Hn'. left.
Qed.
End DistinctValues.

Lemma demo_column_V (row : Z) :
  (0 <= row < 4)%Z ->
  GetCellValue (Mock.remote demo) (world (Mock.start demo false)) demo_grid
    row "V"
  = Ok (nth (Z.to_nat row) ["A "; "A"; " A"; "B"] "").
Proof.
  intros Hrow.
  assert (Hcases : row = 0%Z \/ row = 1%Z \/ row = 2%Z \/ row = 3%Z) by lia.
  destruct Hcases as [->|[->|[->| ->]]]; reflexivity.
Defined.

(** The values ["A "], ["A"], [" A"], ["B"] of column ["V"]. *)
Lemma grid_get_distinct_trimmed_sorted_witness :
  fst (SapSession.grid_get_distinct (R := Mock.remote demo) demo_grid "V"
         (Mock.start demo false)) = Ok ["A"; "B"].
Proof.
  destruct (grid_get_distinct_trimmed_sorted (R := Mock.remote demo)
              demo_grid "V" 4
              (fun row => nth (Z.to_nat row) ["A "; "A"; " A"; "B"] "")
              (Mock.start demo false) eq_refl demo_column_V)
    as (l & s' & Hrun & _ & _ & _ & Hexample).
  rewrite Hrun. simpl. f_equal. apply Hexample. reflexivity.
Defined.

(** Column ["K"] of the grid raises at row 2 (as at every row). *)
Lemma grid_get_distinct_propagates_witness :
  (exists e s',
     SapSession.grid_get_distinct (R := Mock.remote demo) demo_grid "K"
       (Mock.start demo false) = (Raise e, s'))
  /\ (exists data,
        fst (SapSession.grid_read_all (R := Mock.remote demo) demo_grid
               (Some ["K"]) 0 (Mock.start demo false)) = Ok data).
Proof.
  destruct (grid_get_distinct_propagates (R := Mock.remote demo) demo_grid
              "K" 4 2 (ComError "cell type not readable")
              (Mock.start demo false) eq_refl ltac:(lia) eq_refl)
    as [(row0 & e0 & s' & _ & _ & Hrun) (data & s'' & record & Hall & _)].
  split.
  - exists e0, s'. exact Hrun.
  - exists data. now rewrite Hall.
Defined.

Section FillLoop.
Context {R : Remote}.
Import SapSession.

Lemma set_field_probe_trace (name : string) (ftypes : list string)
    (s : state R) :
  snd (set_field_probe name ftypes s)
  = mkState (world s)
      (trace s ++ map (EvFindByName name) (attempts R (world s) name ftypes)).
Proof.
  revert s. induction ftypes as [|ftype rest IH]; intros s.
  - simpl. unfold raise. simpl. now rewrite state_eta.
  - simpl. unfold try_except, session_findByName, query.
    destruct (findByName R (world s) name ftype) as [h|e]; simpl.
    + reflexivity.
    + rewrite IH. simpl. now rewrite <- app_assoc.
Qed.











End FillLoop.


Section TraceGrowth.
Context {R : Remote}.
Import SapSession.

Lemma extends_ret {A} (a : A) : extends (R := R) (ret a).
Proof. intros s. reflexivity. Qed.

Lemma extends_raise {A} (e : exn) : extends (R := R) (A := A) (raise e).
Proof. intros s. reflexivity. Qed.

Lemma extends_lift {A} (r : result A) : extends (R := R) (lift r).
Proof. intros s. reflexivity. Qed.

Lemma extends_query {A} (ev : event R) (f : World R -> result A) :
  extends (query ev f).
Proof. intros s. simpl. now apply prefix_app_r. Qed.

Lemma extends_action (ev : event R) (f : World R -> result unit * World R) :
  extends (action ev f).
Proof.
  intros s. unfold action. destruct (f (world s)). simpl.
  now apply prefix_app_r.
Qed.

Lemma extends_log (lvl : log_level) (msg : string) :
  extends (R := R) (log lvl msg).
Proof. intros s. simpl. now apply prefix_app_r. Qed.

Lemma extends_bind {A B} (m : M R A) (k : A -> M R B) :
  extends m -> (forall a, extends (k a)) -> extends (bind m k).
Proof.
  intros Hm Hk s. unfold bind. specialize (Hm s).
  destruct (m s) as [[a|e] s']; simpl in *; [|exact Hm].
  etransitivity; [exact Hm | apply Hk].
Qed.

Lemma extends_try_except {A} (m : M R A) (h : exn -> M R A) :
  extends m -> (forall e, extends (h e)) -> extends (try_except m h).
Proof.
  intros Hm Hh s. unfold try_except. specialize (Hm s).
  destruct (m s) as [[a|e] s']; simpl in *; [exact Hm|].
  etransitivity; [exact Hm | apply Hh].
Qed.

Lemma extends_for_list {A B} (f : A -> M R B) (l : list A) :
  (forall a, extends (f a)) -> extends (for_list f l).
Proof.
  intros Hf. induction l as [|a l IH]; simpl.
  - apply extends_ret.
  - apply extends_bind; [apply Hf|]. intros b.
    apply extends_bind; [exact IH|]. intros bs. apply extends_ret.
Qed.

Lemma extends_for_fold {A B} (f : B -> A -> M R B) (l : list A) (b : B) :
  (forall b a, extends (f b a)) -> extends (for_fold f b l).
Proof.
  intros Hf. revert b. induction l as [|a l IH]; intros b; simpl.
  - apply extends_ret.
  - apply extends_bind; [apply Hf | intros b'; apply IH].
Qed.

Lemma extends_find_by_id (id : string) (raise_error : bool) :
  extends (R := R) (find_by_id id raise_error).
Proof.
  apply extends_try_except.
  - apply extends_bind; [apply extends_query | intros h; apply extends_ret].
  - intros e. destruct raise_error; [apply extends_raise | apply extends_ret].
Qed.

Lemma extends_find_grid_probe (paths : list string) :
  extends (R := R) (find_grid_probe paths).
Proof.
  induction paths as [|path rest IH]; simpl.
  - apply extends_ret.
  - apply extends_bind; [apply extends_find_by_id|].
    intros [g|]; [apply extends_ret | exact IH].
Qed.

Lemma extends_grid_read_all (grid : Handle R) columns max_rows :
  extends (grid_read_all grid columns max_rows).
Proof.
  unfold grid_read_all. apply extends_bind.
  - destruct columns; [apply extends_ret|].
    apply extends_bind; [apply extends_query|]. intros co.
    apply extends_for_list. intros i. apply extends_lift.
  - intros cols. apply extends_bind; [apply extends_query|]. intros total.
    apply extends_bind.
    + apply extends_for_list. intros row. apply extends_for_fold.
      intros record col. apply extends_bind; [|intros v; apply extends_ret].
      apply extends_try_except; [apply extends_query|].
      intros e. apply extends_ret.
    + intros data. apply extends_bind; [apply extends_log|].
      intros _. apply extends_ret.
Qed.

(** Every harvest starts by probing the first of the known grid paths. *)
Lemma harvest_starts_probing {A} (k : option (Handle R) -> M R A)
    (s : state R) :
  (forall g, extends (k g)) ->
  exists tr,
    trace (snd ((grid <- find_grid "wnd[0]/usr" ;; k grid) s))
    = (trace s
       ++ EvFindById "wnd[0]/usr/cntlRESULT_LIST/shellcont/shell" :: tr)%list.
Proof.
  intros Hk.
  set (s0 := emit (EvFindById "wnd[0]/usr/cntlRESULT_LIST/shellcont/shell") s).
  assert (Hrest : exists m : M R A,
    extends m
    /\ (grid <- find_grid "wnd[0]/usr" ;; k grid) s = m s0).
  { unfold find_grid.
    change (common_paths "wnd[0]/usr")
      with ["wnd[0]/usr/cntlRESULT_LIST/shellcont/shell";
            "wnd[0]/usr/cntlCONTAINER/shellcont/shell";
            "wnd[0]/usr/cntlGRID1/shellcont/shell";
            "wnd[0]/usr/cntlGRID/shellcont/shell";
            "wnd[0]/usr/cntlALV_CONTAINER/shellcont/shell"].
    cbn [find_grid_probe].
    unfold bind at 1. unfold bind at 1.
    unfold find_by_id at 1, session_findById, try_except, query, bind, ret.
    destruct (findById R (world s)
                "wnd[0]/usr/cntlRESULT_LIST/shellcont/shell") as [g|e].
    - exists (k (Some g)). split; [apply Hk | reflexivity].
    - exists (grid <- find_grid_probe
                        ["wnd[0]/usr/cntlCONTAINER/shellcont/shell";
                         "wnd[0]/usr/cntlGRID1/shellcont/shell";
                         "wnd[0]/usr/cntlGRID/shellcont/shell";
                         "wnd[0]/usr/cntlALV_CONTAINER/shellcont/shell"] ;;
              k grid).
      split; [|reflexivity].
      apply extends_bind; [apply extends_find_grid_probe | exact Hk]. }
  destruct Hrest as (m & Hm & ->).
  destruct (Hm s0) as [tr Htr]. exists tr. rewrite Htr. unfold s0. simpl.
  now rewrite <- app_assoc.
Qed.
End TraceGrowth.

Section StatusMonitor.
Context {R : Remote}.
Import SapSession.

Lemma check_statusbar_error_run (s : state R) (sbar : Handle R)
    (text mtype : string) :
  findById R (world s) "wnd[0]/sbar" = Ok sbar ->
  Text R (world s) sbar = Ok text ->
  MessageType R (world s) sbar = Ok mtype ->
  check_statusbar_error s
  = (Ok (if is_error_type mtype then Some text else None),
     after_status s sbar).
Proof.
  intros Hs Ht Hm. unfold check_statusbar_error, get_statusbar.
  unfold session_findById. unfold_monad. rewrite Hs. simpl.
  rewrite Ht. simpl. rewrite Hm. simpl. unfold after_status.
  destruct (is_error_type mtype); simpl; rewrite <- !app_assoc; reflexivity.
Qed.

Lemma is_error_type_E_or_A (mtype : string) :
  mtype = "E" \/ mtype = "A" -> is_error_type mtype = true.
Proof. intros [-> | ->]; reflexivity. Qed.

(** Both helpers, from the status check on. *)
Lemma run_transaction_report_from_status tcode selection_fields execute_vkey
    read_columns max_rows (s s1 s2 : state R) (err : option string) :
  run_transaction_report_execute tcode selection_fields execute_vkey s
  = (Ok tt, s1) ->
  check_statusbar_error s1 = (Ok err, s2) ->
  run_transaction_report tcode selection_fields execute_vkey read_columns
    max_rows s
  = if err_truthy err
    then (Ok [], emit (EvLog WARNING (tcode ++ " status: " ++ err_text err)) s2)
    else run_transaction_report_harvest tcode read_columns max_rows s2.
Proof.
  intros Hexec Hcheck. unfold run_transaction_report.
  unfold bind at 1. rewrite Hexec. unfold bind at 1. rewrite Hcheck.
  destruct (err_truthy err); reflexivity.
Qed.

Lemma run_se16h_from_status table fields max_rows (s s1 s2 : state R)
    (err : option string) :
  run_se16h_execute table fields max_rows s = (Ok tt, s1) ->
  check_statusbar_error s1 = (Ok err, s2) ->
  run_se16h table fields max_rows s
  = if err_truthy err
    then (Ok [], emit (EvLog WARNING ("SE16H status: " ++ err_text err)) s2)
    else run_se16h_harvest fields max_rows s2.
Proof.
  intros Hexec Hcheck. unfold run_se16h.
  unfold bind at 1. rewrite Hexec. unfold bind at 1. rewrite Hcheck.
  destruct (err_truthy err); reflexivity.
Qed.

(** With a message text on the Error or Abort status, both helpers stop at
    the status check: the empty list, one warning, no call on any grid. *)
Lemma error_status_with_text_short_circuits tcode selection_fields
    execute_vkey read_columns table fields max_rows
    (s s1 : state R) (sbar : Handle R) (text mtype : string) :
  findById R (world s1) "wnd[0]/sbar" = Ok sbar ->
  Text R (world s1) sbar = Ok text ->
  MessageType R (world s1) sbar = Ok mtype ->
  mtype = "E" \/ mtype = "A" ->
  truthy text = true ->
  (run_transaction_report_execute tcode selection_fields execute_vkey s
   = (Ok tt, s1) ->
   run_transaction_report tcode selection_fields execute_vkey read_columns
     max_rows s
   = (Ok [], emit (EvLog WARNING (tcode ++ " status: " ++ text))
               (after_status s1 sbar)))
  /\ (run_se16h_execute table fields max_rows s = (Ok tt, s1) ->
      run_se16h table fields max_rows s
      = (Ok [], emit (EvLog WARNING ("SE16H status: " ++ text))
                  (after_status s1 sbar))).
Proof.
  intros Hs Ht Hm Hsev Htext.
  pose proof (check_statusbar_error_run s1 sbar text mtype Hs Ht Hm) as Hcheck.
  rewrite (is_error_type_E_or_A mtype Hsev) in Hcheck.
  split; intros Hexec.
  - rewrite (run_transaction_report_from_status _ _ _ _ _ _ _ _ _
               Hexec Hcheck).
    simpl. now rewrite Htext.
  - rewrite (run_se16h_from_status _ _ _ _ _ _ _ Hexec Hcheck).
    simpl. now rewrite Htext.
Qed.

(** C9. With severity Error or Abort and the empty message text,
    [check_statusbar_error] returns that empty string, and
    [run_transaction_report] does not stop there: it goes on as after a clean
    status, probing the grid paths from the first one and, where a grid is
    found, reading it. *)
Theorem empty_error_text_does_not_short_circuit tcode selection_fields
    execute_vkey read_columns max_rows
    (s s1 : state R) (sbar : Handle R) (mtype : string) :
  run_transaction_report_execute tcode selection_fields execute_vkey s
  = (Ok tt, s1) ->
  findById R (world s1) "wnd[0]/sbar" = Ok sbar ->
  Text R (world s1) sbar = Ok "" ->
  MessageType R (world s1) sbar = Ok mtype ->
  mtype = "E" \/ mtype = "A" ->
  let s2 := after_status s1 sbar in
  let run := run_transaction_report tcode selection_fields execute_vkey
               read_columns max_rows s in
  check_statusbar_error s1 = (Ok (Some ""), s2)
  /\ run = run_transaction_report_harvest tcode read_columns max_rows s2
  /\ (exists tr,
        trace (snd run)
        = (trace s2
           ++ EvFindById "wnd[0]/usr/cntlRESULT_LIST/shellcont/shell" :: tr)
          %list)
  /\ (forall g s3,
        find_grid "wnd[0]/usr" s2 = (Ok (Some g), s3) ->
        run = grid_read_all g read_columns max_rows s3).
Proof.
  intros Hexec Hs Ht Hm Hsev s2 run.
  pose proof (check_statusbar_error_run s1 sbar "" mtype Hs Ht Hm) as Hcheck.
  rewrite (is_error_type_E_or_A mtype Hsev) in Hcheck.
  assert (Hrun : run
                 = run_transaction_report_harvest tcode read_columns max_rows
                     s2).
  { unfold run.
    now rewrite (run_transaction_report_from_status _ _ _ _ _ _ _ _ _
                   Hexec Hcheck). }
  split; [exact Hcheck|]. split; [exact Hrun|]. split.
  - rewrite Hrun. unfold run_transaction_report_harvest.
    apply harvest_starts_probing. intros [g|].
    + apply extends_grid_read_all.
    + apply extends_bind; [apply extends_log | intros _; apply extends_ret].
  - intros g s3 Hfind. rewrite Hrun. unfold run_transaction_report_harvest.
    unfold bind. now rewrite Hfind.
Qed.
End StatusMonitor.

(** The report FBL1N against [demo]: status Error, empty text, a grid of
    four rows. *)
Lemma empty_error_text_does_not_short_circuit_witness :
  let s := Mock.start demo false in
  fst (SapSession.check_statusbar_error
         (snd (run_transaction_report_execute (R := Mock.remote demo) "FBL1N"
                 (Some [("BUKRS", "1000")]) 8 s)))
  = Ok (Some "")
  /\ fst (run_transaction_report (R := Mock.remote demo) "FBL1N"
            (Some [("BUKRS", "1000")]) 8 None 0 s)
     = Ok demo_rows.
Proof.
  intros s.
  destruct (empty_error_text_does_not_short_circuit
              (R := Mock.remote demo) "FBL1N" (Some [("BUKRS", "1000")]) 8
              None 0 s
              (snd (run_transaction_report_execute (R := Mock.remote demo)
                      "FBL1N" (Some [("BUKRS", "1000")]) 8 s))
              "wnd[0]/sbar" "E"
              ltac:(vm_compute; reflexivity) eq_refl eq_refl eq_refl
              ltac:(left; reflexivity))
    as (Hcheck & Hrun & _).
  split.
  - rewrite Hcheck. reflexivity.
  - rewrite Hrun. vm_compute. reflexivity.
Defined.

(** C2 at a status of severity Error whose message text is empty: both
    helpers go past the status check, probe for the grid, read it and return
    its four rows. *)
Theorem error_status_with_empty_text_reads_grid :
  let R := Mock.remote demo in
  let s := Mock.start demo false in
  let report := run_transaction_report (R := R) "FBL1N"
                  (Some [("BUKRS", "1000")]) 8 None 0 s in
  let se16h := run_se16h (R := R) "BSIK" demo_fields 0 s in
  SapSession.get_statusbar
    (snd (run_transaction_report_execute (R := R) "FBL1N"
            (Some [("BUKRS", "1000")]) 8 s))
  = (Ok {| SapSession.sb_text := ""; SapSession.sb_type := "E" |},
     after_status
       (snd (run_transaction_report_execute (R := R) "FBL1N"
               (Some [("BUKRS", "1000")]) 8 s)) "wnd[0]/sbar")
  /\ fst report = Ok demo_rows
  /\ grid_calls (trace (snd report)) = 13%nat
  /\ fst se16h = Ok demo_rows
  /\ grid_calls (trace (snd se16h)) = 12%nat.
Proof.
  repeat split; vm_compute; reflexivity.
Qed.

(** ** Further properties of the wrapper *)

Section GridLocator.
Context {R : Remote}.
Import SapSession.

Lemma find_grid_probe_miss (paths : list string) (s : state R) :
  (forall q, q ∈ paths -> is_ok (findById R (world s) q) = false) ->
  find_grid_probe paths s
  = (Ok None, mkState (world s) (trace s ++ map EvFindById paths)).
Proof.
  revert s. induction paths as [|p rest IH]; intros s Hmiss.
  - simpl. unfold ret. now rewrite state_eta.
  - pose proof (Hmiss p ltac:(left)) as Hp.
    destruct (findById R (world s) p) as [g|e] eqn:Hf; [discriminate|].
    cbn [find_grid_probe]. unfold bind at 1.
    rewrite (find_by_id_missing _ _ _ _ Hf).
    rewrite IH by (intros q Hq; apply Hmiss; now right).
    simpl. now rewrite <- app_assoc.
Qed.

Lemma find_grid_probe_hit (pre post : list string) (p : string)
    (g : Handle R) (s : state R) :
  (forall q, q ∈ pre -> is_ok (findById R (world s) q) = false) ->
  findById R (world s) p = Ok g ->
  find_grid_probe (pre ++ p :: post) s
  = (Ok (Some g),
     mkState (world s) (trace s ++ map EvFindById (pre ++ [p]))).
Proof.
  revert s. induction pre as [|q0 pre IH]; intros s Hmiss Hhit.
  - cbn [app find_grid_probe]. unfold bind at 1.
    now rewrite (find_by_id_found _ _ _ _ Hhit).
  - pose proof (Hmiss q0 ltac:(left)) as Hq0.
    destruct (findById R (world s) q0) as [g0|e] eqn:Hf; [discriminate|].
    cbn [app find_grid_probe]. unfold bind at 1.
    rewrite (find_by_id_missing _ _ _ _ Hf).
    rewrite IH; [|intros q Hq; apply Hmiss; now right|exact Hhit].
    simpl. now rewrite <- app_assoc.
Qed.

(** X1. [find_grid]: the first of the known paths that resolves wins, and the
    paths ranked after it are not probed. *)
Theorem find_grid_first_match_wins (search_id : string)
    (pre post : list string) (p : string) (g : Handle R) (s : state R) :
  common_paths search_id = (pre ++ p :: post)%list ->
  (forall q, q ∈ pre -> is_ok (findById R (world s) q) = false) ->
  findById R (world s) p = Ok g ->
  find_grid search_id s
  = (Ok (Some g),
     mkState (world s) (trace s ++ map EvFindById (pre ++ [p]))).
Proof.
  intros Hpaths Hmiss Hhit. unfold find_grid. rewrite Hpaths.
  now apply find_grid_probe_hit.
Qed.

(** X2. [find_grid]: when none of the five known paths resolves, the result is
    [None], not an exception, after one probe of each path in rank order. *)
Theorem find_grid_none_when_no_path_resolves (search_id : string)
    (s : state R) :
  (forall q, q ∈ common_paths search_id ->
     is_ok (findById R (world s) q) = false) ->
  find_grid search_id s
  = (Ok None,
     mkState (world s)
       (trace s
        ++ [EvFindById (search_id ++ "/cntlRESULT_LIST/shellcont/shell");
            EvFindById (search_id ++ "/cntlCONTAINER/shellcont/shell");
            EvFindById (search_id ++ "/cntlGRID1/shellcont/shell");
            EvFindById (search_id ++ "/cntlGRID/shellcont/shell");
            EvFindById (search_id ++ "/cntlALV_CONTAINER/shellcont/shell")])).
Proof.
  intros Hmiss. unfold find_grid.
  now rewrite (find_grid_probe_miss _ s Hmiss).
Qed.
End GridLocator.

(** In [demo] the grid sits at the third path. *)
Lemma find_grid_first_match_wins_witness :
  SapSession.find_grid (R := Mock.remote demo) "wnd[0]/usr"
    (Mock.start demo false)
  = (Ok (Some demo_grid),
     mkState (R := Mock.remote demo) (world (Mock.start demo false))
       [EvFindById "wnd[0]/usr/cntlRESULT_LIST/shellcont/shell";
        EvFindById "wnd[0]/usr/cntlCONTAINER/shellcont/shell";
        EvFindById "wnd[0]/usr/cntlGRID1/shellcont/shell"]).
Proof.
  apply (find_grid_first_match_wins (R := Mock.remote demo) "wnd[0]/usr"
           ["wnd[0]/usr/cntlRESULT_LIST/shellcont/shell";
            "wnd[0]/usr/cntlCONTAINER/shellcont/shell"]
           ["wnd[0]/usr/cntlGRID/shellcont/shell";
            "wnd[0]/usr/cntlALV_CONTAINER/shellcont/shell"]
           demo_grid demo_grid (Mock.start demo false)).
  - reflexivity.
  - intros q Hq. apply elem_of_cons in Hq as [->|Hq]; [reflexivity|].
    apply list_elem_of_singleton in Hq as ->. reflexivity.
  - reflexivity.
Defined.

Lemma no_grid_paths_miss (w : Mock.mock_world) (q : string) :
  q ∈ SapSession.common_paths "wnd[0]/usr" ->
  is_ok (findById (Mock.remote no_grid) w q) = false.
Proof.
  intros Hq.
  repeat (apply elem_of_cons in Hq as [->|Hq]; [reflexivity|]).
  now apply not_elem_of_nil in Hq.
Defined.

Lemma find_grid_none_when_no_path_resolves_witness :
  fst (SapSession.find_grid (R := Mock.remote no_grid) "wnd[0]/usr"
         (Mock.start no_grid false)) = Ok None.
Proof.
  rewrite (find_grid_none_when_no_path_resolves (R := Mock.remote no_grid)
             "wnd[0]/usr" (Mock.start no_grid false)
             (no_grid_paths_miss _)).
  reflexivity.
Defined.

Section Workflows.
Context {R : Remote}.
Import SapSession.

Lemma harvest_reads_found_grid (columns : option (list string))
    (cols pre post : list string) (p : string) (g : Handle R)
    (n max_rows : Z) (s : state R) (no_grid_msg : string) :
  common_paths "wnd[0]/usr" = (pre ++ p :: post)%list ->
  (forall q, q ∈ pre -> is_ok (findById R (world s) q) = false) ->
  findById R (world s) p = Ok g ->
  RowCount R (world s) g = Ok n ->
  columns_resolve R (world s) g columns cols ->
  exists s',
    (grid <- find_grid "wnd[0]/usr" ;;
     match grid with
     | None => log WARNING no_grid_msg ;;; ret []
     | Some g => grid_read_all g columns max_rows
     end) s
    = (Ok (map (record_of R (world s) g cols)
             (py_range (if (0 <? max_rows)%Z then Z.min n max_rows else n))),
       s')
    /\ world s' = world s.
Proof.
  intros Hpaths Hmiss Hhit Hn Hcols. unfold find_grid. rewrite Hpaths.
  unfold bind at 1. rewrite (find_grid_probe_hit pre post p g s Hmiss Hhit).
  pose proof (grid_read_all_run g columns cols max_rows n
                (mkState (world s) (trace s ++ map EvFindById (pre ++ [p])))
                Hn Hcols) as Hrun.
  cbv zeta in Hrun. rewrite Hrun. eexists. split; reflexivity.
Qed.

Lemma harvest_without_grid (columns : option (list string)) (max_rows : Z)
    (s : state R) (no_grid_msg : string) :
  (forall q, q ∈ common_paths "wnd[0]/usr" ->
     is_ok (findById R (world s) q) = false) ->
  (grid <- find_grid "wnd[0]/usr" ;;
   match grid with
   | None => log WARNING no_grid_msg ;;; ret []
   | Some g => grid_read_all g columns max_rows
   end) s
  = (Ok [],
     mkState (world s)
       (trace s ++ map EvFindById (common_paths "wnd[0]/usr")
        ++ [EvLog WARNING no_grid_msg])).
Proof.
  intros Hmiss. unfold find_grid. unfold bind at 1.
  rewrite (find_grid_probe_miss _ s Hmiss). unfold_monad. simpl.
  now rewrite <- app_assoc.
Qed.

(** X3. Both helpers: after a status that does not stop them, when none of the
    known grid paths resolves they return the empty list with one warning and
    no exception; nothing is read from any grid. *)
Theorem helpers_without_grid_return_empty tcode selection_fields execute_vkey
    read_columns table fields max_rows (s s1 s2 : state R)
    (err : option string) :
  check_statusbar_error s1 = (Ok err, s2) ->
  err_truthy err = false ->
  (forall q, q ∈ common_paths "wnd[0]/usr" ->
     is_ok (findById R (world s2) q) = false) ->
  (run_transaction_report_execute tcode selection_fields execute_vkey s
   = (Ok tt, s1) ->
   run_transaction_report tcode selection_fields execute_vkey read_columns
     max_rows s
   = (Ok [],
      mkState (world s2)
        (trace s2 ++ map EvFindById (common_paths "wnd[0]/usr")
         ++ [EvLog WARNING (tcode ++ ": No grid found")])))
  /\ (run_se16h_execute table fields max_rows s = (Ok tt, s1) ->
      run_se16h table fields max_rows s
      = (Ok [],
         mkState (world s2)
           (trace s2 ++ map EvFindById (common_paths "wnd[0]/usr")
            ++ [EvLog WARNING "SE16H: No grid found in results"]))).
Proof.
  intros Hcheck Herr Hmiss. split; intros Hexec.
  - rewrite (run_transaction_report_from_status _ _ _ _ _ _ _ _ _
               Hexec Hcheck), Herr.
    now apply harvest_without_grid.
  - rewrite (run_se16h_from_status _ _ _ _ _ _ _ Hexec Hcheck), Herr.
    now apply harvest_without_grid.
Qed.

(** X4. [run_transaction_report], end to end: execute done, a status that does
    not stop it, a grid at one of the known paths with [n] rows: the result
    is one record per row read, in row order, each built from that grid's
    cells over the resolved column list; the remote state is as the status
    check left it. *)
Theorem run_transaction_report_harvests_grid tcode selection_fields
    execute_vkey read_columns (cols pre post : list string) (p : string)
    (g : Handle R) (n max_rows : Z) (s s1 s2 : state R)
    (err : option string) :
  run_transaction_report_execute tcode selection_fields execute_vkey s
  = (Ok tt, s1) ->
  check_statusbar_error s1 = (Ok err, s2) ->
  err_truthy err = false ->
  common_paths "wnd[0]/usr" = (pre ++ p :: post)%list ->
  (forall q, q ∈ pre -> is_ok (findById R (world s2) q) = false) ->
  findById R (world s2) p = Ok g ->
  RowCount R (world s2) g = Ok n ->
  columns_resolve R (world s2) g read_columns cols ->
  let run := run_transaction_report tcode selection_fields execute_vkey
               read_columns max_rows s in
  fst run
  = Ok (map (record_of R (world s2) g cols)
          (py_range (if (0 <? max_rows)%Z then Z.min n max_rows else n)))
  /\ world (snd run) = world s2.
Proof.
  intros Hexec Hcheck Herr Hpaths Hmiss Hhit Hn Hcols run. unfold run.
  rewrite (run_transaction_report_from_status _ _ _ _ _ _ _ _ _
             Hexec Hcheck), Herr.
  unfold run_transaction_report_harvest.
  destruct (harvest_reads_found_grid read_columns cols pre post p g n
              max_rows s2 (tcode ++ ": No grid found")
              Hpaths Hmiss Hhit Hn Hcols) as (s' & -> & Hw).
  now split.
Qed.

(** The harvest on a found grid, with everything it does in order. *)
Lemma harvest_of_found_grid (columns : option (list string))
    (cols pre post : list string) (p : string) (g : Handle R)
    (n max_rows : Z) (s : state R) (no_grid_msg : string) :
  common_paths "wnd[0]/usr" = (pre ++ p :: post)%list ->
  (forall q, q ∈ pre -> is_ok (findById R (world s) q) = false) ->
  findById R (world s) p = Ok g ->
  RowCount R (world s) g = Ok n ->
  columns_resolve R (world s) g columns cols ->
  let total := if (0 <? max_rows)%Z then Z.min n max_rows else n in
  (grid <- find_grid "wnd[0]/usr" ;;
   match grid with
   | None => log WARNING no_grid_msg ;;; ret []
   | Some g => grid_read_all g columns max_rows
   end) s
  = (Ok (map (record_of R (world s) g cols) (py_range total)),
     mkState (world s)
       (trace s ++ map EvFindById (pre ++ [p]) ++ column_events g columns
        ++ [EvRowCount g] ++ cell_events g cols (py_range total)
        ++ [EvLog INFO ("Grid read: " ++ pretty total ++ " rows "
                        ++ times_sign ++ " " ++ pretty (length cols)
                        ++ " columns")])).
Proof.
  intros Hpaths Hmiss Hhit Hn Hcols total. unfold find_grid. rewrite Hpaths.
  unfold bind at 1. rewrite (find_grid_probe_hit pre post p g s Hmiss Hhit).
  pose proof (grid_read_all_run g columns cols max_rows n
                (mkState (world s) (trace s ++ map EvFindById (pre ++ [p])))
                Hn Hcols) as Hrun.
  cbv zeta in Hrun. fold total in Hrun. rewrite Hrun. cbn [world trace].
  f_equal. f_equal. rewrite <- !app_assoc. reflexivity.
Qed.

(** X5. [run_se16h], end to end: the columns read are the configured field
    names in order, followed by [COUNT] when some field is grouped.  After
    the status check the helper probes for the grid, reads the row count and
    fetches the cells row by row over exactly that column list, in that
    order; it returns one record per row read, built from those cells, and
    every record has exactly those keys. *)
Theorem run_se16h_harvests_named_columns table (fields : list field_cfg)
    (pre post : list string) (p : string) (g : Handle R) (n max_rows : Z)
    (s s1 s2 : state R) (err : option string) :
  run_se16h_execute table fields max_rows s = (Ok tt, s1) ->
  check_statusbar_error s1 = (Ok err, s2) ->
  err_truthy err = false ->
  common_paths "wnd[0]/usr" = (pre ++ p :: post)%list ->
  (forall q, q ∈ pre -> is_ok (findById R (world s2) q) = false) ->
  findById R (world s2) p = Ok g ->
  RowCount R (world s2) g = Ok n ->
  let cols := (map fc_name fields
               ++ (if existsb (fun f => get_truthy (fc_group f)) fields
                   then ["COUNT"] else []))%list in
  let rows := py_range (if (0 <? max_rows)%Z then Z.min n max_rows else n) in
  exists data msg,
    run_se16h table fields max_rows s
    = (Ok data,
       mkState (world s2)
         (trace s2 ++ map EvFindById (pre ++ [p]) ++ [EvRowCount g]
          ++ cell_events g cols rows ++ [EvLog INFO msg]))
    /\ data = map (record_of R (world s2) g cols) rows
    /\ length data
       = Z.to_nat (if (0 <? max_rows)%Z then Z.min n max_rows else n)
    /\ (forall (i : nat) record c,
          data !! i = Some record -> c ∈ cols ->
          record !! c
          = Some (cell_or_empty
                    (GetCellValue R (world s2) g (Z.of_nat i) c)))
    /\ forall record, record ∈ data ->
         dom record
         = list_to_set (map fc_name fields)
           ∪ (if existsb (fun f => get_truthy (fc_group f)) fields
              then {["COUNT"]} else ∅).
Proof.
  intros Hexec Hcheck Herr Hpaths Hmiss Hhit Hn cols rows.
  rewrite (run_se16h_from_status _ _ _ _ _ _ _ Hexec Hcheck), Herr.
  unfold run_se16h_harvest.
  pose proof (harvest_of_found_grid (Some (se16h_read_cols fields))
                (se16h_read_cols fields) pre post p g n max_rows s2
                "SE16H: No grid found in results"
                Hpaths Hmiss Hhit Hn eq_refl) as Hrun.
  cbv zeta in Hrun. rewrite Hrun.
  change (se16h_read_cols fields) with cols. fold rows.
  eexists _, _. split; [reflexivity|]. split; [reflexivity|]. split; [|split].
  - unfold rows. now rewrite length_map, length_py_range.
  - intros i record c Hi Hc. rewrite list_lookup_fmap in Hi.
    destruct (rows !! i) as [row|] eqn:Hrow; [|discriminate].
    apply lookup_py_range in Hrow as [-> _]. simpl in Hi.
    injection Hi as <-. rewrite record_of_lookup.
    destruct (decide (c ∈ cols)); [reflexivity | contradiction].
  - intros record Hin. apply list_elem_of_fmap in Hin as (row & -> & _).
    rewrite record_of_dom. unfold cols.
    rewrite list_to_set_app_L. f_equal.
    destruct (existsb _ fields); simpl; [|reflexivity].
    now rewrite (right_id_L ∅ (∪)).
Qed.

(** X6. Only the message types ["E"] and ["A"] stop a helper: with any other
    type, whatever the message text, [check_statusbar_error] returns [None]
    and both helpers go on to the grid. *)
Theorem other_status_types_do_not_stop_helpers tcode selection_fields
    execute_vkey read_columns table fields max_rows (s s1 : state R)
    (sbar : Handle R) (text mtype : string) :
  findById R (world s1) "wnd[0]/sbar" = Ok sbar ->
  Text R (world s1) sbar = Ok text ->
  MessageType R (world s1) sbar = Ok mtype ->
  mtype <> "E" -> mtype <> "A" ->
  check_statusbar_error s1 = (Ok None, after_status s1 sbar)
  /\ (run_transaction_report_execute tcode selection_fields execute_vkey s
      = (Ok tt, s1) ->
      run_transaction_report tcode selection_fields execute_vkey read_columns
        max_rows s
      = run_transaction_report_harvest tcode read_columns max_rows
          (after_status s1 sbar))
  /\ (run_se16h_execute table fields max_rows s = (Ok tt, s1) ->
      run_se16h table fields max_rows s
      = run_se16h_harvest fields max_rows (after_status s1 sbar)).
Proof.
  intros Hs Ht Hm HE HA.
  pose proof (check_statusbar_error_run s1 sbar text mtype Hs Ht Hm) as Hcheck.
  assert (Hty : is_error_type mtype = false).
  { unfold is_error_type.
    destruct (String.eqb_spec mtype "E"); [contradiction|].
    destruct (String.eqb_spec mtype "A"); [contradiction|]. reflexivity. }
  rewrite Hty in Hcheck. split; [exact Hcheck|]. split; intros Hexec.
  - now rewrite (run_transaction_report_from_status _ _ _ _ _ _ _ _ _
                   Hexec Hcheck).
  - now rewrite (run_se16h_from_status _ _ _ _ _ _ _ Hexec Hcheck).
Qed.

(** X7. A refused [StartTransaction] ends [run_transaction_report] at once with
    that exception: no field is looked up, no key sent, no status read. *)
Theorem failed_navigation_aborts_report tcode selection_fields execute_vkey
    read_columns max_rows (s : state R) (e : exn) (w' : World R) :
  StartTransaction R (world s) tcode = (Raise e, w') ->
  run_transaction_report tcode selection_fields execute_vkey read_columns
    max_rows s
  = (Raise e,
     mkState w'
       (trace s ++ [EvLog INFO ("Starting transaction: " ++ tcode);
                    EvStartTransaction tcode])).
Proof.
  intros Hstart.
  unfold run_transaction_report, run_transaction_report_execute,
    start_transaction.
  unfold_monad. simpl. rewrite Hstart. simpl.
  now rewrite <- app_assoc.
Qed.

(** X8. The status check is strict: when the status bar does not resolve after
    execute, both helpers raise the lookup's exception and go no further. *)
Theorem unresolved_status_bar_aborts_helpers tcode selection_fields
    execute_vkey read_columns table fields max_rows (s s1 : state R)
    (e : exn) :
  findById R (world s1) "wnd[0]/sbar" = Raise e ->
  (run_transaction_report_execute tcode selection_fields execute_vkey s
   = (Ok tt, s1) ->
   run_transaction_report tcode selection_fields execute_vkey read_columns
     max_rows s
   = (Raise e, emit (EvFindById "wnd[0]/sbar") s1))
  /\ (run_se16h_execute table fields max_rows s = (Ok tt, s1) ->
      run_se16h table fields max_rows s
      = (Raise e, emit (EvFindById "wnd[0]/sbar") s1)).
Proof.
  intros Hs.
  assert (Hcheck : check_statusbar_error s1
                   = (Raise e, emit (EvFindById "wnd[0]/sbar") s1)).
  { unfold check_statusbar_error, get_statusbar, session_findById.
    unfold_monad. now rewrite Hs. }
  split; intros Hexec.
  - unfold run_transaction_report. unfold bind at 1. rewrite Hexec.
    unfold bind at 1. now rewrite Hcheck.
  - unfold run_se16h. unfold bind at 1. rewrite Hexec.
    unfold bind at 1. now rewrite Hcheck.
Qed.
End Workflows.

(** A Warning status and no grid on the screen. *)
Lemma helpers_without_grid_return_empty_witness :
  fst (run_transaction_report (R := Mock.remote no_grid) "FBL1N"
         (Some [("BUKRS", "1000")]) 8 None 0 (Mock.start no_grid false))
  = Ok [].
Proof.
  pose (s := Mock.start no_grid false).
  pose (s1 := snd (run_transaction_report_execute (R := Mock.remote no_grid)
                     "FBL1N" (Some [("BUKRS", "1000")]) 8 s)).
  destruct (helpers_without_grid_return_empty (R := Mock.remote no_grid)
              "FBL1N" (Some [("BUKRS", "1000")]) 8 None "BSIK" [] 0
              s s1 (snd (SapSession.check_statusbar_error s1)) None
              ltac:(vm_compute; reflexivity) eq_refl (no_grid_paths_miss _))
    as [Hreport _].
  fold s. rewrite Hreport; [reflexivity | vm_compute; reflexivity].
Defined.

Lemma report_columns (w : Mock.mock_world) :
  columns_resolve (Mock.remote report) w report_grid None ["BUKRS"; "BELNR"].
Proof.
  exists (Mock.mock_ColumnOrder report). split; [reflexivity|].
  split; [reflexivity|].
  intros [|[|[|i]]] c Hc; simpl in Hc; try discriminate;
    injection Hc as <-; reflexivity.
Defined.

(** The fields [{"BUKRS": "1000", "GJAHR": "2024"}], the execute key F8, a
    grid of three rows and two columns, a Success status. *)
Lemma run_transaction_report_harvests_grid_witness :
  fst (run_transaction_report (R := Mock.remote report) "FBL1N"
         (Some [("BUKRS", "1000"); ("GJAHR", "2024")]) 8 None 0
         (Mock.start report false))
  = Ok (map (fun row : string =>
               <["BUKRS" := "BUKRS-" ++ row]> (<["BELNR" := "BELNR-" ++ row]> ∅))
          ["0"; "1"; "2"]).
Proof.
  pose (s := Mock.start report false).
  pose (s1 := snd (run_transaction_report_execute (R := Mock.remote report)
                     "FBL1N" (Some [("BUKRS", "1000"); ("GJAHR", "2024")])
                     8 s)).
  destruct (run_transaction_report_harvests_grid (R := Mock.remote report)
              "FBL1N" (Some [("BUKRS", "1000"); ("GJAHR", "2024")]) 8 None
              ["BUKRS"; "BELNR"] []
              ["wnd[0]/usr/cntlCONTAINER/shellcont/shell";
               "wnd[0]/usr/cntlGRID1/shellcont/shell";
               "wnd[0]/usr/cntlGRID/shellcont/shell";
               "wnd[0]/usr/cntlALV_CONTAINER/shellcont/shell"]
              report_grid report_grid 3 0
              s s1 (snd (SapSession.check_statusbar_error s1)) None
              ltac:(vm_compute; reflexivity) ltac:(vm_compute; reflexivity)
              eq_refl eq_refl
              ltac:(intros q Hq; now apply not_elem_of_nil in Hq)
              eq_refl eq_refl (report_columns _))
    as [Hrows _].
  fold s. rewrite Hrows. vm_compute. reflexivity.
Defined.

(** BUKRS grouped and BELNR plain, on the grid of three rows: the cells
    are fetched row by row in the order BUKRS, BELNR, COUNT. *)
Lemma run_se16h_harvests_named_columns_witness :
  exists data before msg,
    run_se16h (R := Mock.remote report) "BSIK" report_fields 0
      (Mock.start report false)
    = (Ok data,
       mkState (R := Mock.remote report) (world (Mock.start report false))
         (before
          ++ cell_events (R := Mock.remote report) report_grid
               ["BUKRS"; "BELNR"; "COUNT"] [0; 1; 2]
          ++ [EvLog INFO msg]))
    /\ length data = 3%nat
    /\ forall record, record ∈ data ->
         dom record = ({["BUKRS"; "BELNR"; "COUNT"]} : gset string).
Proof.
  pose (s := Mock.start report false).
  pose (s1 := snd (run_se16h_execute (R := Mock.remote report) "BSIK"
                     report_fields 0 s)).
  pose (s2 := snd (SapSession.check_statusbar_error s1)).
  destruct (run_se16h_harvests_named_columns (R := Mock.remote report)
              "BSIK" report_fields []
              ["wnd[0]/usr/cntlCONTAINER/shellcont/shell";
               "wnd[0]/usr/cntlGRID1/shellcont/shell";
               "wnd[0]/usr/cntlGRID/shellcont/shell";
               "wnd[0]/usr/cntlALV_CONTAINER/shellcont/shell"]
              report_grid report_grid 3 0
              s s1 s2 None
              ltac:(vm_compute; reflexivity) ltac:(vm_compute; reflexivity)
              eq_refl eq_refl
              ltac:(intros q Hq; now apply not_elem_of_nil in Hq)
              eq_refl eq_refl)
    as (data & msg & Hrun & _ & Hlen & _ & Hdom).
  exists data,
    (trace s2 ++ [EvFindById report_grid;
                  EvRowCount (R := Mock.remote report) report_grid])%list,
    msg.
  split; [|split].
  - fold s. rewrite Hrun. vm_compute. reflexivity.
  - exact Hlen.
  - intros record Hin. rewrite (Hdom record Hin). vm_compute. reflexivity.
Defined.

(** A Warning status with a message text. *)
Lemma other_status_types_do_not_stop_helpers_witness :
  let s := Mock.start no_grid false in
  let s1 := snd (run_transaction_report_execute (R := Mock.remote no_grid)
                   "FBL1N" None 8 s) in
  fst (SapSession.check_statusbar_error s1) = Ok None.
Proof.
  intros s s1.
  destruct (other_status_types_do_not_stop_helpers (R := Mock.remote no_grid)
              "FBL1N" None 8 None "BSIK" [] 0 s s1 "wnd[0]/sbar"
              "No data selected" "W" eq_refl eq_refl eq_refl
              ltac:(discriminate) ltac:(discriminate))
    as (Hcheck & _).
  now rewrite Hcheck.
Defined.

(** A transaction code the system refuses. *)
Lemma failed_navigation_aborts_report_witness :
  run_transaction_report (R := hostile) "ZZZZ"
    (Some [("BUKRS", "1000")]) 8 None 0 hostile_start
  = (Raise (ComError "Transaction does not exist"),
     mkState (R := hostile) (world hostile_start)
       [EvLog INFO "Starting transaction: ZZZZ"; EvStartTransaction "ZZZZ"]).
Proof.
  apply (failed_navigation_aborts_report (R := hostile) "ZZZZ"
           (Some [("BUKRS", "1000")]) 8 None 0 hostile_start
           (ComError "Transaction does not exist") (world hostile_start)
           eq_refl).
Defined.

(** A window without a status bar. *)
Lemma unresolved_status_bar_aborts_helpers_witness :
  fst (run_transaction_report (R := Mock.remote no_sbar) "FBL1N" None 8 None
         0 (Mock.start no_sbar false))
  = Raise Mock.not_found.
Proof.
  pose (s := Mock.start no_sbar false).
  destruct (unresolved_status_bar_aborts_helpers (R := Mock.remote no_sbar)
              "FBL1N" None 8 None "BSIK" [] 0 s
              (snd (run_transaction_report_execute (R := Mock.remote no_sbar)
                      "FBL1N" None 8 s))
              Mock.not_found eq_refl)
    as [Hreport _].
  fold s. rewrite Hreport; [reflexivity | vm_compute; reflexivity].
Defined.

Section Se16h.
Context {R : Remote}.
Import SapSession.

Lemma se16h_selection_value_never_raises (cfg : field_cfg) (s : state R) :
  exists s', se16h_selection_value cfg s = (Ok tt, s').
Proof.
  unfold se16h_selection_value. destruct (fc_value cfg) as [value|].
  - unfold try_except.
    destruct (set_field (fc_name cfg) value "" s) as [[[]|e] s']; eauto.
  - unfold ret. eauto.
Qed.

Lemma se16h_selection_loop_never_raises (fields : list field_cfg)
    (s : state R) :
  exists s', for_each se16h_selection_value fields s = (Ok tt, s').
Proof.
  revert s. induction fields as [|cfg fields IH]; intros s.
  - simpl. unfold ret. eauto.
  - simpl. unfold bind.
    destruct (se16h_selection_value_never_raises cfg s) as (s1 & ->).
    apply IH.
Qed.

(** X9. [run_se16h]: the field table is filled strictly.  When the table cell
    for the name of the first field does not resolve, the helper raises the
    lookup's exception there, before any execute. *)
Theorem run_se16h_field_table_is_strict table (cfg : field_cfg)
    (rest : list field_cfg) max_rows (s s1 s2 s3 : state R) (e : exn) :
  start_transaction "SE16H" s = (Ok tt, s1) ->
  set_field_by_id "wnd[0]/usr/ctxtGD-TAB" table s1 = (Ok tt, s2) ->
  send_vkey VKEY_ENTER "wnd[0]" s2 = (Ok tt, s3) ->
  findById R (world s3)
    "wnd[0]/usr/tblSAPLSE16HFIELDS_TABLE/ctxtGS_FIELDS-FIELDNAME[0,0]"
  = Raise e ->
  run_se16h table (cfg :: rest) max_rows s
  = (Raise e,
     emit (EvFindById
             "wnd[0]/usr/tblSAPLSE16HFIELDS_TABLE/ctxtGS_FIELDS-FIELDNAME[0,0]")
          s3).
Proof.
  intros Hstart Htab Henter Hcell.
  unfold run_se16h, run_se16h_execute.
  unfold bind at 1. unfold bind at 1. rewrite Hstart.
  unfold bind at 1. rewrite Htab.
  unfold bind at 1. rewrite Henter.
  unfold bind at 1.
  change (enumerate (cfg :: rest))
    with ((0%nat, cfg) :: zip (seq 1 (length rest)) rest).
  cbn [for_each]. unfold bind at 1.
  unfold se16h_field_row at 1. unfold bind at 1.
  change (fields_table ++ "/ctxtGS_FIELDS-FIELDNAME[0," ++ pretty 0%nat ++ "]")
    with "wnd[0]/usr/tblSAPLSE16HFIELDS_TABLE/ctxtGS_FIELDS-FIELDNAME[0,0]".
  unfold set_field_by_id at 1, session_findById. unfold bind at 1.
  unfold query at 1. now rewrite Hcell.
Qed.

(** X10. [run_se16h]: setting the selection values and the row limit is best
    effort.  Once the field table is filled and confirmed, whatever those
    steps meet, the helper goes on to send the execute key F8 and to the
    popup check; they add to the trace and raise nothing. *)
Theorem run_se16h_selection_is_best_effort table (fields : list field_cfg)
    max_rows (s s5 : state R) :
  (start_transaction "SE16H" ;;;
   set_field_by_id "wnd[0]/usr/ctxtGD-TAB" table ;;;
   send_vkey VKEY_ENTER "wnd[0]" ;;;
   for_each se16h_field_row (enumerate fields) ;;;
   send_vkey VKEY_ENTER "wnd[0]") s = (Ok tt, s5) ->
  exists s6,
    run_se16h_execute table fields max_rows s
    = (send_vkey VKEY_F8 "wnd[0]" ;;;
       handle_popup "wnd[1]/tbar[0]/btn[0]" true ;;;
       ret tt) s6.
Proof.
  intros Hprefix. unfold run_se16h_execute.
  unfold bind at 1 in Hprefix. unfold bind at 1.
  destruct (start_transaction "SE16H" s) as [[[]|e] sa]; [|discriminate].
  unfold bind at 1 in Hprefix. unfold bind at 1.
  destruct (set_field_by_id "wnd[0]/usr/ctxtGD-TAB" table sa)
    as [[[]|e] sb]; [|discriminate].
  unfold bind at 1 in Hprefix. unfold bind at 1.
  destruct (send_vkey VKEY_ENTER "wnd[0]" sb) as [[[]|e] sc]; [|discriminate].
  unfold bind at 1 in Hprefix. unfold bind at 1.
  destruct (for_each se16h_field_row (enumerate fields) sc)
    as [[[]|e] sd]; [|discriminate].
  unfold bind at 1. rewrite Hprefix.
  unfold bind at 1.
  destruct (se16h_selection_loop_never_raises fields s5) as (se & ->).
  unfold bind at 1.
  destruct (0 <? max_rows)%Z.
  - unfold try_except.
    destruct (set_field_by_id "wnd[0]/usr/txtGD-MAX_LINES" (pretty max_rows)
                se) as [[[]|e] sf]; eexists; reflexivity.
  - unfold ret at 1. eexists; reflexivity.
Qed.
End Se16h.

(** The screen of [no_grid] has the table-name field but no field table. *)
Lemma run_se16h_field_table_is_strict_witness :
  fst (run_se16h (R := Mock.remote no_grid) "BSIK" report_fields 0
         (Mock.start no_grid false))
  = Raise Mock.not_found.
Proof.
  pose (s := Mock.start no_grid false).
  pose (s1 := snd (SapSession.start_transaction "SE16H" s)).
  pose (s2 := snd (SapSession.set_field_by_id "wnd[0]/usr/ctxtGD-TAB" "BSIK"
                     s1)).
  pose (s3 := snd (SapSession.send_vkey SapSession.VKEY_ENTER "wnd[0]" s2)).
  unfold report_fields.
  rewrite (run_se16h_field_table_is_strict (R := Mock.remote no_grid)
             "BSIK" _ _ 0 s s1 s2 s3 Mock.not_found
             eq_refl eq_refl eq_refl eq_refl).
  reflexivity.
Defined.

(** Against [report] the selection value of BELNR cannot be set; the
    helper executes all the same. *)
Lemma run_se16h_selection_is_best_effort_witness :
  exists s6,
    run_se16h_execute (R := Mock.remote report) "BSIK" report_fields 5
      (Mock.start report false)
    = (SapSession.send_vkey SapSession.VKEY_F8 "wnd[0]" ;;;
       SapSession.handle_popup "wnd[1]/tbar[0]/btn[0]" true ;;;
       ret tt) s6.
Proof.
  apply (run_se16h_selection_is_best_effort (R := Mock.remote report)
           "BSIK" report_fields 5 (Mock.start report false)
           (snd ((SapSession.start_transaction "SE16H" ;;;
                  SapSession.set_field_by_id "wnd[0]/usr/ctxtGD-TAB" "BSIK" ;;;
                  SapSession.send_vkey SapSession.VKEY_ENTER "wnd[0]" ;;;
                  for_each se16h_field_row (enumerate report_fields) ;;;
                  SapSession.send_vkey SapSession.VKEY_ENTER "wnd[0]")
                   (Mock.start report false)))).
  vm_compute. reflexivity.
Defined.

Section Accessors.
Context {R : Remote}.
Import SapSession.

(** X11. [get_field] without a type tries [txt], [ctxt], [lbl] in that order and
    returns the first text it can read: a field that resolves under a type
    but whose text cannot be read is passed over like one that does not
    resolve; when no type gives a text it raises [ValueError].  With a type
    there is no fallback: the lookup's or the read's exception is raised as
    it is.  Nothing on the remote side changes. *)
Theorem get_field_first_readable_text (field_name field_type : string)
    (s : state R) :
  fst (get_field field_name "" s)
  = match readable R (world s) field_name "txt" with
    | Ok v => Ok v
    | Raise _ =>
        match readable R (world s) field_name "ctxt" with
        | Ok v => Ok v
        | Raise _ =>
            match readable R (world s) field_name "lbl" with
            | Ok v => Ok v
            | Raise _ =>
                Raise (ValueError ("Field '" ++ field_name ++ "' not found"))
            end
        end
    end
  /\ (truthy field_type = true ->
      fst (get_field field_name field_type s)
      = readable R (world s) field_name field_type)
  /\ world (snd (get_field field_name field_type s)) = world s.
Proof.
  split; [|split].
  - unfold get_field. cbn [truthy get_field_probe].
    unfold readable, read_text, session_findByName. unfold_monad.
    destruct (findByName R (world s) field_name "txt") as [h1|e1]; simpl.
    + destruct (Text R (world s) h1) as [v1|x1]; simpl; [reflexivity|].
      destruct (findByName R (world s) field_name "ctxt") as [h2|e2]; simpl.
      * destruct (Text R (world s) h2) as [v2|x2]; simpl; [reflexivity|].
        destruct (findByName R (world s) field_name "lbl") as [h3|e3]; simpl;
          [destruct (Text R (world s) h3); reflexivity | reflexivity].
      * destruct (findByName R (world s) field_name "lbl") as [h3|e3]; simpl;
          [destruct (Text R (world s) h3); reflexivity | reflexivity].
    + destruct (findByName R (world s) field_name "ctxt") as [h2|e2]; simpl.
      * destruct (Text R (world s) h2) as [v2|x2]; simpl; [reflexivity|].
        destruct (findByName R (world s) field_name "lbl") as [h3|e3]; simpl;
          [destruct (Text R (world s) h3); reflexivity | reflexivity].
      * destruct (findByName R (world s) field_name "lbl") as [h3|e3]; simpl;
          [destruct (Text R (world s) h3); reflexivity | reflexivity].
  - intros Hty. unfold get_field. rewrite Hty.
    unfold readable, read_text, session_findByName. unfold_monad.
    destruct (findByName R (world s) field_name field_type) as [h|e]; simpl;
      reflexivity.
  - unfold get_field.
    destruct (truthy field_type).
    + unfold read_text, session_findByName. unfold_monad.
      destruct (findByName R (world s) field_name field_type); reflexivity.
    + cbn [get_field_probe].
      unfold read_text, session_findByName. unfold_monad.
      destruct (findByName R (world s) field_name "txt") as [h1|e1]; simpl.
      * destruct (Text R (world s) h1); simpl; [reflexivity|].
        destruct (findByName R (world s) field_name "ctxt") as [h2|e2]; simpl.
        -- destruct (Text R (world s) h2); simpl; [reflexivity|].
           destruct (findByName R (world s) field_name "lbl") as [h3|e3];
             simpl; [destruct (Text R (world s) h3); reflexivity|reflexivity].
        -- destruct (findByName R (world s) field_name "lbl") as [h3|e3];
             simpl; [destruct (Text R (world s) h3); reflexivity|reflexivity].
      * destruct (findByName R (world s) field_name "ctxt") as [h2|e2]; simpl.
        -- destruct (Text R (world s) h2); simpl; [reflexivity|].
           destruct (findByName R (world s) field_name "lbl") as [h3|e3];
             simpl; [destruct (Text R (world s) h3); reflexivity|reflexivity].
        -- destruct (findByName R (world s) field_name "lbl") as [h3|e3];
             simpl; [destruct (Text R (world s) h3); reflexivity|reflexivity].
Qed.

Lemma set_field_probe_result (name : string) (ftypes : list string)
    (s : state R) :
  fst (set_field_probe name ftypes s)
  = match first_resolved R (world s) name ftypes with
    | Some h => Ok h
    | None => Raise (ValueError ("Field '" ++ name
                                 ++ "' not found as ctxt/txt/cmb"))
    end.
Proof.
  revert s. induction ftypes as [|ftype rest IH]; intros s; [reflexivity|].
  simpl. unfold try_except, session_findByName, query.
  destruct (findByName R (world s) name ftype) as [h|e]; [reflexivity|].
  now rewrite IH.
Qed.

(** X12. [set_field] without a type settles on the first of [ctxt], [txt], [cmb]
    that resolves: when setting the text of that control raises, the
    exception is raised as it is, right after the attempt, and no later type
    is looked up; when none resolves it raises [ValueError] and the remote
    state is untouched. *)
Theorem set_field_settles_on_first_resolved (name value : string)
    (s : state R) :
  (forall h e w',
     first_resolved R (world s) name ["ctxt"; "txt"; "cmb"] = Some h ->
     set_text R (world s) h value = (Raise e, w') ->
     set_field name value "" s
     = (Raise e,
        mkState w'
          (trace s
           ++ map (EvFindByName name)
                (attempts R (world s) name ["ctxt"; "txt"; "cmb"])
           ++ [EvSetText h value])))
  /\ (first_resolved R (world s) name ["ctxt"; "txt"; "cmb"] = None ->
      set_field name value "" s
      = (Raise (ValueError ("Field '" ++ name
                            ++ "' not found as ctxt/txt/cmb")),
         mkState (world s)
           (trace s ++ [EvFindByName name "ctxt"; EvFindByName name "txt";
                        EvFindByName name "cmb"]))).
Proof.
  pose proof (set_field_probe_result name ["ctxt"; "txt"; "cmb"] s) as Hres.
  pose proof (set_field_probe_trace name ["ctxt"; "txt"; "cmb"] s) as Htr.
  destruct (set_field_probe name ["ctxt"; "txt"; "cmb"] s) as [r s1] eqn:Hp.
  cbn [fst snd] in Hres, Htr. subst s1. split.
  - intros h e w' Hfirst Hset. rewrite Hfirst in Hres. subst r.
    unfold set_field. cbn [truthy]. unfold bind at 1. rewrite Hp.
    unfold bind, action. cbn [world trace]. rewrite Hset.
    now rewrite <- app_assoc.
  - intros Hnone. rewrite Hnone in Hres. subst r.
    unfold set_field. cbn [truthy]. unfold bind at 1. rewrite Hp.
    f_equal. f_equal. f_equal.
    cbn [first_resolved] in Hnone. cbn [attempts].
    destruct (findByName R (world s) name "ctxt"); [discriminate|].
    destruct (findByName R (world s) name "txt"); [discriminate|].
    destruct (findByName R (world s) name "cmb"); [discriminate|].
    reflexivity.
Qed.

(** X13. [table_read_cell] never raises: it returns the text of the cell
    addressed under [ctxt] when that resolves and reads, else the text of the
    cell addressed under [txt], else [""]; the remote state is untouched. *)
Theorem table_read_cell_ladder (table_id col_name : string) (row : Z)
    (s : state R) :
  fst (table_read_cell table_id row col_name s)
  = Ok (match text_at R (world s) (table_cell_id table_id "ctxt" col_name row)
        with
        | Ok v => v
        | Raise _ =>
            match text_at R (world s)
                    (table_cell_id table_id "txt" col_name row)
            with
            | Ok v => v
            | Raise _ => ""
            end
        end)
  /\ world (snd (table_read_cell table_id row col_name s)) = world s.
Proof.
  unfold table_read_cell, text_at, read_text, session_findById.
  unfold_monad.
  destruct (findById R (world s) (table_cell_id table_id "ctxt" col_name row))
    as [c1|e1]; simpl.
  - destruct (Text R (world s) c1) as [v1|x1]; simpl; [now split|].
    destruct (findById R (world s)
                (table_cell_id table_id "txt" col_name row))
      as [c2|e2]; simpl; [|now split].
    destruct (Text R (world s) c2); simpl; now split.
  - destruct (findById R (world s)
                (table_cell_id table_id "txt" col_name row))
      as [c2|e2]; simpl; [|now split].
    destruct (Text R (world s) c2); simpl; now split.
Qed.

(** X14. [handle_popup] returns [True] exactly when the dismiss control resolved
    and its press went through and, with [check_exists], the secondary window
    resolved first; in every other case it returns [False]. *)
Theorem handle_popup_true_iff_dismissed (button_id : string)
    (check_exists : bool) (s : state R) :
  fst (handle_popup button_id check_exists s)
  = Ok ((negb check_exists || is_ok (findById R (world s) "wnd[1]"))
        && negb (dismiss_fails R (world s) button_id)).
Proof.
  assert (Hpress : forall s0 : state R,
    fst (press_dismiss button_id s0)
    = Ok (negb (dismiss_fails R (world s0) button_id))).
  { intros s0. unfold press_dismiss, dismiss_fails, session_findById.
    unfold_monad.
    destruct (findById R (world s0) button_id) as [btn|e]; simpl;
      [|reflexivity].
    destruct (press R (world s0) btn) as [[[]|e] w']; reflexivity. }
  unfold handle_popup. destruct check_exists; simpl.
  - unfold bind.
    destruct (findById R (world s) "wnd[1]") as [p|e] eqn:Hp.
    + rewrite (find_by_id_found _ _ _ _ Hp). simpl.
      exact (Hpress (emit (EvFindById "wnd[1]") s)).
    + rewrite (find_by_id_missing _ _ _ _ Hp). reflexivity.
  - apply Hpress.
Qed.

(** X15. [locked]: when the lock cannot be taken, the exception of
    [LockSessionUI] is raised, the block does not run and no unlock is
    attempted. *)
Theorem locked_without_lock_runs_nothing {A} (body : M R A) (s : state R)
    (e : exn) (w' : World R) :
  LockSessionUI R (world s) = (Raise e, w') ->
  locked body s = (Raise e, mkState w' (trace s ++ [EvLockSessionUI])).
Proof.
  intros Hlock. unfold locked, lock_ui, bind, action. now rewrite Hlock.
Qed.

(** X16. [locked]: an exception of the unlock replaces the outcome of the
    block, be it a value or an exception of its own. *)
Theorem locked_unlock_failure_masks_outcome {A} (body : M R A)
    (s s1 s2 : state R) (r : result A) (e : exn) (w' : World R) :
  lock_ui s = (Ok tt, s1) ->
  body s1 = (r, s2) ->
  UnlockSessionUI R (world s2) = (Raise e, w') ->
  locked body s
  = (Raise e, mkState w' (trace s2 ++ [EvUnlockSessionUI])).
Proof.
  intros Hlock Hbody Hunlock. unfold locked, bind. rewrite Hlock.
  unfold try_finally. rewrite Hbody. unfold unlock_ui, action.
  now rewrite Hunlock.
Qed.
End Accessors.

(** Against [hostile]: GJAHR reads under [txt]; BUKRS resolves under [ctxt]
    only, where its text does not read. *)
Lemma get_field_first_readable_text_witness :
  fst (SapSession.get_field (R := hostile) "GJAHR" "" hostile_start)
  = Ok "2024"
  /\ fst (SapSession.get_field (R := hostile) "BUKRS" "" hostile_start)
     = Raise (ValueError "Field 'BUKRS' not found")
  /\ fst (SapSession.get_field (R := hostile) "BUKRS" "ctxt" hostile_start)
     = Raise (ComError "no such property").
Proof.
  destruct (get_field_first_readable_text (R := hostile) "GJAHR" ""
              hostile_start) as (Hg & _).
  destruct (get_field_first_readable_text (R := hostile) "BUKRS" "ctxt"
              hostile_start) as (Hb & Hc & _).
  split; [rewrite Hg; reflexivity|].
  split; [rewrite Hb; reflexivity|].
  rewrite (Hc eq_refl). reflexivity.
Defined.

(** Against [hostile]: BUKRS resolves under [ctxt] and is read-only; XYZ
    resolves under no type. *)
Lemma set_field_settles_on_first_resolved_witness :
  SapSession.set_field (R := hostile) "BUKRS" "1000" "" hostile_start
  = (Raise (ComError "The control is read-only"),
     mkState (R := hostile) (world hostile_start)
       [EvFindByName "BUKRS" "ctxt";
        EvSetText (R := hostile) "wnd[0]/usr/ctxtBUKRS" "1000"])
  /\ fst (SapSession.set_field (R := hostile) "XYZ" "1" "" hostile_start)
     = Raise (ValueError "Field 'XYZ' not found as ctxt/txt/cmb").
Proof.
  destruct (set_field_settles_on_first_resolved (R := hostile) "BUKRS" "1000"
              hostile_start) as (Hset & _).
  destruct (set_field_settles_on_first_resolved (R := hostile) "XYZ" "1"
              hostile_start) as (_ & Hnone).
  split.
  - apply (Hset "wnd[0]/usr/ctxtBUKRS" (ComError "The control is read-only")
             (world hostile_start) eq_refl eq_refl).
  - rewrite (Hnone eq_refl). reflexivity.
Defined.

Lemma locked_without_lock_runs_nothing_witness :
  SapSession.locked (R := lock_refused)
    (SapSession.start_transaction "FBL1N") lock_refused_start
  = (Raise (ComError "Session is busy"),
     mkState (R := lock_refused) (world lock_refused_start)
       [EvLockSessionUI]).
Proof.
  apply (locked_without_lock_runs_nothing (R := lock_refused)
           (SapSession.start_transaction "FBL1N") lock_refused_start
           (ComError "Session is busy") (world lock_refused_start) eq_refl).
Defined.

(** Against [hostile] the lock is taken, the block completes with 7, and
    the unlock is refused. *)
Lemma locked_unlock_failure_masks_outcome_witness :
  SapSession.locked (R := hostile) (ret 7) hostile_start
  = (Raise (ComError "Session is busy"),
     mkState (R := hostile) (world hostile_start)
       [EvLockSessionUI; EvUnlockSessionUI]).
Proof.
  apply (locked_unlock_failure_masks_outcome (R := hostile) (ret 7)
           hostile_start (snd (SapSession.lock_ui hostile_start))
           (snd (SapSession.lock_ui hostile_start)) (Ok 7)
           (ComError "Session is busy") (world hostile_start)
           eq_refl eq_refl eq_refl).
Defined.

Section Strip.

Lemma append_cons (a : ascii) (s t : string) :
  (String a s ++ t)%string = String a (s ++ t)%string.
Proof. reflexivity. Qed.

Lemma append_nil_r (s : string) : (s ++ "")%string = s.
Proof.
  induction s as [|a s IH]; [reflexivity|].
  rewrite append_cons. now f_equal.
Qed.

Lemma append_assoc (s1 s2 s3 : string) :
  ((s1 ++ s2) ++ s3)%string = (s1 ++ (s2 ++ s3))%string.
Proof.
  induction s1 as [|a s1 IH]; [reflexivity|].
  rewrite !append_cons. now f_equal.
Qed.

Lemma rev_app_append (s1 s2 : string) :
  String.rev_app s1 s2 = (String.rev s1 ++ s2)%string.
Proof.
  unfold String.rev. revert s2.
  induction s1 as [|a s1 IH]; intros s2; [reflexivity|].
  cbn [String.rev_app].
  rewrite (IH (String a s2)), (IH (String a "")).
  now rewrite append_assoc.
Qed.

Lemma rev_cons (a : ascii) (s : string) :
  String.rev (String a s) = (String.rev s ++ String a "")%string.
Proof. unfold String.rev at 1. cbn [String.rev_app]. apply rev_app_append. Qed.

Lemma rev_append (s1 s2 : string) :
  String.rev (s1 ++ s2) = (String.rev s2 ++ String.rev s1)%string.
Proof.
  induction s1 as [|a s1 IH].
  - change (String.rev "") with "". rewrite append_nil_r. reflexivity.
  - now rewrite append_cons, !rev_cons, IH, append_assoc.
Qed.

Lemma rev_involutive (s : string) : String.rev (String.rev s) = s.
Proof.
  induction s as [|a s IH]; [reflexivity|].
  now rewrite rev_cons, rev_append, IH.
Qed.

Lemma lstrip_head (s : string) :
  lstrip s = ""
  \/ exists c t, lstrip s = String c t /\ is_space c = false.
Proof.
  induction s as [|a s IH]; simpl; [now left|].
  destruct (is_space a) eqn:Ha; [exact IH|]. right. eauto.
Qed.

Lemma lstrip_fixed (c : ascii) (t : string) :
  is_space c = false -> lstrip (String c t) = String c t.
Proof. intros Hc. simpl. now rewrite Hc. Qed.

Lemma lstrip_idempotent (s : string) : lstrip (lstrip s) = lstrip s.
Proof.
  destruct (lstrip_head s) as [->|(c & t & -> & Hc)]; [reflexivity|].
  now apply lstrip_fixed.
Qed.

Lemma lstrip_before_nonspace (u : string) (c : ascii) :
  is_space c = false ->
  lstrip (u ++ String c "") = (lstrip u ++ String c "")%string.
Proof.
  intros Hc. induction u as [|a u IH].
  - change (lstrip (String c "") = String c ""). now apply lstrip_fixed.
  - rewrite append_cons. cbn [lstrip].
    destruct (is_space a); [exact IH | now rewrite append_cons].
Qed.

Lemma rstrip_idempotent (s : string) : rstrip (rstrip s) = rstrip s.
Proof. unfold rstrip. now rewrite rev_involutive, lstrip_idempotent. Qed.

Lemma rstrip_keeps_head (c : ascii) (t : string) :
  is_space c = false ->
  rstrip (String c t) = String c (String.rev (lstrip (String.rev t))).
Proof.
  intros Hc. unfold rstrip.
  rewrite rev_cons, (lstrip_before_nonspace _ c Hc), rev_append.
  reflexivity.
Qed.

Lemma strip_idempotent (s : string) : strip (strip s) = strip s.
Proof.
  unfold strip.
  destruct (lstrip_head s) as [->|(c & t & -> & Hc)]; [reflexivity|].
  rewrite (rstrip_keeps_head c t Hc), (lstrip_fixed c _ Hc).
  rewrite <- (rstrip_keeps_head c t Hc). apply rstrip_idempotent.
Qed.
End Strip.

Section GridEdges.
Context {R : Remote}.
Import SapSession.

Lemma grid_get_distinct_run (grid : Handle R) (column : string) (n : Z)
    (vals : Z -> string) (s : state R) :
  RowCount R (world s) grid = Ok n ->
  (forall row, (0 <= row < n)%Z ->
     GetCellValue R (world s) grid row column = Ok (vals row)) ->
  grid_get_distinct grid column s
  = (Ok (sorted (list_to_set (map strip (map vals (py_range n))) ∪ ∅)),
     mkState (world s)
       ((trace s ++ [EvRowCount grid])
        ++ map (fun row => EvGetCellValue grid row column) (py_range n))).
Proof.
  intros Hn Hcells. unfold grid_get_distinct. unfold bind at 1.
  unfold query at 1. rewrite Hn. unfold bind at 1.
  rewrite (distinct_loop_ok grid column vals)
    by (intros row Hr; apply Hcells; now apply elem_of_py_range).
  reflexivity.
Qed.

(** X17. [grid_read_all]: an exception of the row count read is raised as it is,
    after the columns are settled and before any cell is fetched. *)
Theorem grid_read_all_row_count_failure (grid : Handle R)
    (columns : option (list string)) (cols : list string) (max_rows : Z)
    (e : exn) (s : state R) :
  RowCount R (world s) grid = Raise e ->
  columns_resolve R (world s) grid columns cols ->
  grid_read_all grid columns max_rows s
  = (Raise e,
     mkState (world s)
       (trace s ++ column_events grid columns ++ [EvRowCount grid])).
Proof.
  intros Hn Hcols. unfold grid_read_all.
  assert (Hresolved :
    (match columns with
     | None => grid_get_columns grid
     | Some given => ret given
     end) s
    = (Ok cols, mkState (world s) (trace s ++ column_events grid columns))).
  { destruct columns as [given|]; simpl in Hcols.
    - subst given. unfold ret. simpl. now rewrite state_eta.
    - destruct Hcols as (co & Hco & Hl).
      now rewrite (grid_get_columns_run grid co cols s Hco Hl). }
  unfold bind at 1. rewrite Hresolved.
  unfold bind at 1. unfold query at 1. simpl. rewrite Hn.
  unfold emit. simpl. now rewrite <- app_assoc.
Qed.

(** X18. [grid_read_all] at the edges: a row count of zero or below gives the
    empty list and no cell fetch; a negative [max_rows] caps nothing, like
    0. *)
Theorem grid_read_all_edge_counts (grid : Handle R)
    (columns : option (list string)) (cols : list string) (n max_rows : Z)
    (s : state R) :
  RowCount R (world s) grid = Ok n ->
  columns_resolve R (world s) grid columns cols ->
  exists data s',
    grid_read_all grid columns max_rows s = (Ok data, s')
    /\ ((n <= 0)%Z ->
        data = []
        /\ exists msg,
             trace s'
             = (trace s ++ column_events grid columns
                ++ [EvRowCount grid; EvLog INFO msg])%list)
    /\ ((max_rows < 0)%Z -> length data = Z.to_nat n).
Proof.
  intros Hn Hcols.
  pose proof (grid_read_all_run grid columns cols max_rows n s Hn Hcols)
    as Hrun.
  cbv zeta in Hrun.
  set (total := if (0 <? max_rows)%Z then Z.min n max_rows else n) in *.
  eexists _, _. split; [exact Hrun|]. split.
  - intros Hle.
    assert (Hnone : py_range total = []).
    { unfold py_range, total.
      replace (Z.to_nat (if (0 <? max_rows)%Z then Z.min n max_rows else n))
        with 0%nat; [reflexivity|].
      destruct (0 <? max_rows)%Z; lia. }
    rewrite Hnone. split; [reflexivity|]. eexists. reflexivity.
  - intros Hneg. rewrite length_map, length_py_range. unfold total.
    destruct (Z.ltb_spec 0 max_rows); [lia | reflexivity].
Qed.

(** X19. [grid_get_distinct] returns at most one value per row, none for a grid
    without rows, and every value it returns is its own trimmed form: no
    leading or trailing whitespace is left on it. *)
Theorem grid_get_distinct_values_are_trimmed (grid : Handle R)
    (column : string) (n : Z) (vals : Z -> string) (s : state R) :
  RowCount R (world s) grid = Ok n ->
  (forall row, (0 <= row < n)%Z ->
     GetCellValue R (world s) grid row column = Ok (vals row)) ->
  exists l s',
    grid_get_distinct grid column s = (Ok l, s')
    /\ (forall v, v ∈ l -> strip v = v)
    /\ (length l <= Z.to_nat n)%nat
    /\ ((n <= 0)%Z -> l = []).
Proof.
  intros Hn Hcells.
  rewrite (grid_get_distinct_run grid column n vals s Hn Hcells).
  eexists _, _. split; [reflexivity|].
  assert (Hmem : forall v,
    v ∈ sorted (list_to_set (map strip (map vals (py_range n))) ∪ ∅) ->
    v ∈ map strip (map vals (py_range n))).
  { intros v Hv.
    apply sorted_elem_of, elem_of_union in Hv as [Hv|Hv];
      [now apply elem_of_list_to_set in Hv
      | now apply not_elem_of_empty in Hv]. }
  assert (Hlen :
    (length (sorted (list_to_set (map strip (map vals (py_range n))) ∪ ∅))
     <= Z.to_nat n)%nat).
  { replace (Z.to_nat n)
      with (length (map strip (map vals (py_range n))))
      by now rewrite !length_map, length_py_range.
    apply submseteq_length, NoDup_submseteq; [apply sorted_NoDup | exact Hmem]. }
  split; [|split].
  - intros v Hv. apply Hmem in Hv.
    apply list_elem_of_fmap in Hv as (x & -> & _). apply strip_idempotent.
  - exact Hlen.
  - intros Hle.
    destruct (sorted (list_to_set (map strip (map vals (py_range n))) ∪ ∅))
      as [|v l']; [reflexivity|].
    simpl in Hlen. lia.
Qed.
End GridEdges.

(** The row count of a control that is no grid does not read. *)
Lemma grid_read_all_row_count_failure_witness :
  SapSession.grid_read_all (R := Mock.remote demo) "wnd[0]" (Some ["V"]) 0
    (Mock.start demo false)
  = (Raise (ComError "no such property"),
     mkState (R := Mock.remote demo) (world (Mock.start demo false))
       [EvRowCount (R := Mock.remote demo) "wnd[0]"]).
Proof.
  apply (grid_read_all_row_count_failure (R := Mock.remote demo) "wnd[0]"
           (Some ["V"]) ["V"] 0 (ComError "no such property")
           (Mock.start demo false) eq_refl eq_refl).
Defined.

(** The grid of [no_grid] has no rows; the grid of [demo] read with
    [max_rows = -1] gives its four rows. *)
Lemma grid_read_all_edge_counts_witness :
  fst (SapSession.grid_read_all (R := Mock.remote no_grid)
         "wnd[0]/usr/cntlGRID/shellcont/shell" (Some ["A"; "B"]) 10
         (Mock.start no_grid false)) = Ok []
  /\ exists data,
       fst (SapSession.grid_read_all (R := Mock.remote demo) demo_grid None
              (-1) (Mock.start demo false)) = Ok data
       /\ length data = 4%nat.
Proof.
  destruct (grid_read_all_edge_counts (R := Mock.remote no_grid)
              "wnd[0]/usr/cntlGRID/shellcont/shell" (Some ["A"; "B"])
              ["A"; "B"] 0 10 (Mock.start no_grid false) eq_refl eq_refl)
    as (d0 & s0 & Hrun0 & Hzero & _).
  destruct (grid_read_all_edge_counts (R := Mock.remote demo) demo_grid None
              ["V"; "K"] 4 (-1) (Mock.start demo false) eq_refl demo_columns)
    as (d1 & s1 & Hrun1 & _ & Hneg).
  split.
  - rewrite Hrun0. simpl. f_equal. apply Hzero. lia.
  - exists d1. rewrite Hrun1. split; [reflexivity|]. apply Hneg. lia.
Defined.

Lemma grid_get_distinct_values_are_trimmed_witness :
  exists l,
    fst (SapSession.grid_get_distinct (R := Mock.remote demo) demo_grid "V"
           (Mock.start demo false)) = Ok l
    /\ (forall v, v ∈ l -> strip v = v)
    /\ (length l <= 4)%nat.
Proof.
  destruct (grid_get_distinct_values_are_trimmed (R := Mock.remote demo)
              demo_grid "V" 4
              (fun row => nth (Z.to_nat row) ["A "; "A"; " A"; "B"] "")
              (Mock.start demo false) eq_refl demo_column_V)
    as (l & s' & Hrun & Htrim & Hlen & _).
  exists l. rewrite Hrun. split; [reflexivity|]. split; [exact Htrim|].
  exact Hlen.
Defined.

Section Introspect.
Context {R : Remote} (I : Introspection R).
Import SapSession.
Import Explorer.

Lemma foldl_insert_lookup {V} (f : string -> V) (cols : list string)
    (m : gmap string V) (c : string) :
  foldl (fun acc col => <[col := f col]> acc) m cols !! c
  = if decide (c ∈ cols) then Some (f c) else m !! c.
Proof.
  revert m. induction cols as [|col cols IH]; intros m; cbn [foldl].
  - destruct (decide (c ∈ [])) as [Hin|_]; [|reflexivity].
    now apply not_elem_of_nil in Hin.
  - rewrite IH. destruct (decide (c ∈ cols)) as [Hin|Hnin].
    + destruct (decide (c ∈ col :: cols)) as [_|Hn]; [reflexivity|].
      exfalso. apply Hn. now right.
    + destruct (decide (c = col)) as [->|Hne].
      * destruct (decide (col ∈ col :: cols)) as [_|Hn];
          [apply lookup_insert_eq | exfalso; apply Hn; left].
      * destruct (decide (c ∈ col :: cols)) as [Hc|_].
        -- apply elem_of_cons in Hc. tauto.
        -- now apply lookup_insert_ne.
Qed.

Lemma title_loop_run (grid : Handle R) (cols : list string)
    (titles : gmap string string) (s : state R) :
  for_fold (title_step I grid) titles cols s
  = (Ok (foldl (fun acc col =>
                  <[col := title_or_id I (world s) grid col]> acc)
               titles cols), s).
Proof.
  revert titles. induction cols as [|col cols IH]; intros titles;
    [reflexivity|].
  cbn [for_fold foldl]. unfold bind at 1. unfold title_step at 1, peek.
  unfold_monad. unfold title_or_id at 2.
  destruct (GetDisplayedColumnTitle I (world s) grid col); apply IH.
Qed.

(** X20. [grid_get_column_titles]: one entry per column identifier of the grid;
    a column whose displayed title cannot be read maps to its own
    identifier, the other columns to their titles. *)
Theorem grid_get_column_titles_falls_back_to_id (grid : Handle R)
    (co : collection) (cols : list string) (s : state R) :
  ColumnOrder R (world s) grid = Ok co ->
  lists_columns co cols ->
  exists titles s',
    grid_get_column_titles I grid s = (Ok titles, s')
    /\ dom titles = list_to_set cols
    /\ forall c, c ∈ cols ->
         titles !! c
         = Some (match GetDisplayedColumnTitle I (world s) grid c with
                 | Ok title => title
                 | Raise _ => c
                 end).
Proof.
  intros Hco Hl. unfold grid_get_column_titles. unfold bind.
  rewrite (grid_get_columns_run grid co cols s Hco Hl).
  rewrite title_loop_run. eexists _, _. split; [reflexivity|].
  cbn [world emit]. split.
  - apply set_eq. intros c. rewrite elem_of_dom, foldl_insert_lookup.
    rewrite elem_of_list_to_set, lookup_empty.
    destruct (decide (c ∈ cols)); split; intros H; done.
  - intros c Hc. rewrite foldl_insert_lookup.
    destruct (decide (c ∈ cols)); [reflexivity | contradiction].
Qed.

Lemma element_info_run (c : Handle R) (s : state R) :
  element_info I c s = (identity I (world s) c, s).
Proof.
  unfold element_info, identity, peek. unfold_monad.
  destruct (Id I (world s) c); [|reflexivity].
  destruct (Type_ I (world s) c); [|reflexivity].
  destruct (Name I (world s) c); reflexivity.
Qed.

Lemma with_text_run (c : Handle R) (record : gmap string pyval)
    (s : state R) :
  with_text c record s
  = (Ok (<["text" := VStr (cell_or_empty (Text R (world s) c))]> record),
     emit (EvText c) s).
Proof.
  unfold with_text, read_text. unfold_monad.
  destruct (Text R (world s) c); reflexivity.
Qed.

Lemma with_changeable_run (c : Handle R) (record : gmap string pyval)
    (s : state R) :
  with_changeable I c record s
  = (Ok (<["changeable" := match Changeable I (world s) c with
                           | Ok b => VBool b
                           | Raise _ => VNone
                           end]> record), s).
Proof.
  unfold with_changeable, peek. unfold_monad.
  destruct (Changeable I (world s) c); reflexivity.
Qed.

Lemma identity_described (w : World R) (c : Handle R)
    (base : gmap string pyval) (t : string) :
  identity I w c = Ok base -> described (<["text" := VStr t]> base).
Proof.
  unfold identity.
  destruct (Id I w c) as [id|]; [|discriminate].
  destruct (Type_ I w c) as [ty|]; [|discriminate].
  destruct (Name I w c) as [nm|]; [|discriminate].
  intros [= <-]. unfold described, is_str.
  repeat split; try (eexists; by simplify_map_eq).
  rewrite !dom_insert_L, dom_empty_L. intros k.
  rewrite !elem_of_union, !elem_of_singleton, elem_of_empty. tauto.
Qed.

Lemma described_changeable (record : gmap string pyval) (v : pyval) :
  described record -> described (<["changeable" := v]> record).
Proof.
  unfold described, is_str.
  intros ((a & Ha) & (b & Hb) & (c & Hc) & (d & Hd) & Hdom).
  repeat split; try (eexists; rewrite lookup_insert_ne by done; eassumption).
  rewrite dom_insert_L. intros k. rewrite elem_of_union, elem_of_singleton.
  intros [->|Hk]; [|now apply Hdom].
  rewrite !elem_of_union, !elem_of_singleton. tauto.
Qed.

Lemma sub_record_described (w : World R) (c : Handle R) :
  is_ok (identity I w c) = true -> described (sub_record I w c).
Proof.
  unfold sub_record. destruct (identity I w c) as [base|] eqn:Hid;
    [|discriminate].
  intros _. now apply (identity_described w c).
Qed.
End Introspect.

(** The grid of the scripted screen: a title for ["V"], none for ["K"]. *)
Lemma grid_get_column_titles_falls_back_to_id_witness :
  exists titles,
    fst (Explorer.grid_get_column_titles (Screen.introspection Screen.form)
           "wnd[0]/usr/cntlGRID1/shellcont/shell" (Screen.start Screen.form))
    = Ok titles
    /\ titles !! "V" = Some "Value"
    /\ titles !! "K" = Some "K".
Proof.
  destruct (grid_get_column_titles_falls_back_to_id
              (Screen.introspection Screen.form)
              "wnd[0]/usr/cntlGRID1/shellcont/shell"
              (Mock.mock_ColumnOrder Screen.panel) ["V"; "K"]
              (Screen.start Screen.form) eq_refl)
    as (titles & s' & Hrun & _ & Htitles).
  - split; [reflexivity|].
    intros [|[|[|i]]] c Hc; simpl in Hc; try discriminate;
      injection Hc as <-; reflexivity.
  - exists titles. rewrite Hrun. split; [reflexivity|]. split.
    + rewrite (Htitles "V") by left. reflexivity.
    + rewrite (Htitles "K") by (right; left). reflexivity.
Defined.

Section ExplorerScan.
Context {R : Remote} (I : Introspection R).
Import SapSession.
Import Explorer.
Local Open Scope list_scope.

(** One pass of the loop over sub-children. *)
Lemma sub_step_run (col : components (Handle R)) (j : Z) (s : state R) :
  exists s',
    try_except
      (sc <- lift (CItem col j) ;;
       sub_info <- element_info I sc ;;
       sub_info <- with_text sc sub_info ;;
       ret (Some sub_info))
      (fun _ => ret None) s
    = (Ok (match CItem col j with
           | Ok sc =>
               match identity I (world s) sc with
               | Ok _ => Some (sub_record I (world s) sc)
               | Raise _ => None
               end
           | Raise _ => None
           end), s')
    /\ world s' = world s.
Proof.
  unfold try_except, bind at 1, lift.
  destruct (CItem col j) as [sc|e]; [|unfold ret; eauto].
  unfold bind at 1. rewrite element_info_run. unfold sub_record.
  destruct (identity I (world s) sc) as [base|e]; [|unfold ret; eauto].
  unfold bind. rewrite with_text_run. unfold ret. eauto.
Qed.

Lemma sub_loop_total (col : components (Handle R)) (js : list Z)
    (elements : list (gmap string pyval)) (s : state R) :
  Forall described elements ->
  exists l s',
    sub_loop I col js elements s = (Ok l, s')
    /\ world s' = world s
    /\ Forall described l.
Proof.
  revert elements s. induction js as [|j js IH]; intros elements s Hall.
  - exists elements, s. repeat split; auto.
  - cbn [sub_loop]. unfold bind at 1.
    destruct (sub_step_run col j s) as (s1 & -> & Hw1).
    destruct (CItem col j) as [sc|e]; [|unfold ret; eauto].
    destruct (identity I (world s) sc) as [base|e] eqn:Hid;
      [|unfold ret; eauto].
    destruct (IH (elements ++ [sub_record I (world s) sc]) s1)
      as (l & s' & Hrun & Hw & Hl).
    + apply Forall_app. split; [exact Hall|]. apply Forall_singleton.
      apply sub_record_described. now rewrite Hid.
    + exists l, s'. rewrite Hrun. repeat split; [congruence | exact Hl].
Qed.

Lemma sub_loop_all (col : components (Handle R)) (scs : list (Handle R))
    (k : nat) (elements : list (gmap string pyval)) (s : state R) :
  (forall (i : nat) sc, scs !! i = Some sc ->
     CItem col (Z.of_nat (k + i)) = Ok sc) ->
  (forall sc, sc ∈ scs -> is_ok (identity I (world s) sc) = true) ->
  exists s',
    sub_loop I col (map Z.of_nat (seq k (length scs))) elements s
    = (Ok (elements ++ map (sub_record I (world s)) scs), s')
    /\ world s' = world s.
Proof.
  revert k elements s. induction scs as [|sc scs IH];
    intros k elements s Hitems Hids.
  - exists s. simpl. rewrite app_nil_r. split; reflexivity.
  - cbn [length seq map sub_loop]. unfold bind at 1.
    destruct (sub_step_run col (Z.of_nat k) s) as (s1 & -> & Hw1).
    pose proof (Hitems 0%nat sc eq_refl) as Hk.
    rewrite Nat.add_0_r in Hk. rewrite Hk.
    pose proof (Hids sc ltac:(left)) as Hid.
    destruct (identity I (world s) sc) as [base|e]; [|discriminate].
    destruct (IH (S k) (elements ++ [sub_record I (world s) sc]) s1)
      as (s' & Hrun & Hw).
    + intros i sc' Hi. replace (S k + i)%nat with (k + S i)%nat by lia.
      now apply Hitems.
    + intros sc' Hin. rewrite Hw1. apply Hids. now right.
    + exists s'. rewrite Hrun, Hw1. split; [|congruence].
      now rewrite <- app_assoc.
Qed.

Lemma sub_scan_total (child : Handle R)
    (elements : list (gmap string pyval)) (s : state R) :
  Forall described elements ->
  exists l s',
    sub_scan I child elements s = (Ok l, s')
    /\ world s' = world s
    /\ Forall described l.
Proof.
  intros Hall. unfold sub_scan, try_except, bind at 1, peek.
  destruct (ContainerType I (world s) child) as [[|]|e];
    [|unfold ret; eauto..].
  unfold bind at 1.
  destruct (Children I (world s) child) as [col|e]; [|unfold ret; eauto].
  destruct (sub_loop_total col (py_range (CCount col)) elements s Hall)
    as (l & s' & -> & Hw & Hl).
  eauto.
Qed.

Lemma sub_scan_all (child : Handle R) (subs : list (Handle R))
    (elements : list (gmap string pyval)) (s : state R) :
  scannable I (world s) child subs ->
  exists s',
    sub_scan I child elements s
    = (Ok (elements ++ map (sub_record I (world s)) subs), s')
    /\ world s' = world s.
Proof.
  intros [_ Hsubs]. unfold sub_scan, try_except, bind at 1, peek.
  destruct (ContainerType I (world s) child) as [[|]|e].
  - unfold bind at 1.
    destruct (Children I (world s) child) as [col|e].
    + destruct Hsubs as [[Hcount Hitems] Hids].
      rewrite Hcount, py_range_of_nat.
      destruct (sub_loop_all col subs 0 elements s Hitems Hids)
        as (s' & -> & Hw).
      eauto.
    + subst subs. simpl. rewrite app_nil_r. unfold ret. eauto.
  - subst subs. simpl. rewrite app_nil_r. unfold ret. eauto.
  - subst subs. simpl. rewrite app_nil_r. unfold ret. eauto.
Qed.

(** One pass of the loop over the children, up to the dict literal. *)
Lemma child_step_run (col : components (Handle R)) (i : Z) (s : state R) :
  try_except
    (child <- lift (CItem col i) ;;
     record <- element_info I child ;;
     ret (inl (child, record)))
    (fun e => ret (inr e)) s
  = (Ok (match CItem col i with
         | Ok child =>
             match identity I (world s) child with
             | Ok record => inl (child, record)
             | Raise e => inr e
             end
         | Raise e => inr e
         end), s).
Proof.
  unfold try_except, bind at 1, lift.
  destruct (CItem col i) as [child|e]; [|reflexivity].
  unfold bind. rewrite element_info_run.
  destruct (identity I (world s) child); reflexivity.
Qed.

Lemma child_record_eq (w : World R) (child : Handle R)
    (base : gmap string pyval) :
  identity I w child = Ok base ->
  <["changeable" := match Changeable I w child with
                    | Ok b => VBool b
                    | Raise _ => VNone
                    end]>
    (<["text" := VStr (cell_or_empty (Text R w child))]> base)
  = child_record I w child.
Proof. intros Hid. unfold child_record, sub_record. now rewrite Hid. Qed.

Lemma child_record_described (w : World R) (child : Handle R) :
  is_ok (identity I w child) = true -> described (child_record I w child).
Proof.
  intros Hid. unfold child_record. apply described_changeable.
  now apply sub_record_described.
Qed.

Lemma child_loop_total (col : components (Handle R)) (idxs : list Z)
    (elements : list (gmap string pyval)) (s : state R) :
  Forall described elements ->
  exists l oe s',
    child_loop I col idxs elements s = (Ok (l, oe), s')
    /\ world s' = world s
    /\ Forall described l.
Proof.
  revert elements s. induction idxs as [|i idxs IH]; intros elements s Hall.
  - exists elements, None, s. repeat split; auto.
  - cbn [child_loop]. unfold bind at 1. rewrite child_step_run.
    destruct (CItem col i) as [child|e]; [|unfold ret; eauto 10].
    destruct (identity I (world s) child) as [base|e] eqn:Hid;
      [|unfold ret; eauto 10].
    unfold bind at 1. rewrite with_text_run.
    unfold bind at 1. rewrite with_changeable_run. cbn [world emit].
    rewrite (child_record_eq _ _ _ Hid).
    unfold bind at 1.
    destruct (sub_scan_total child
                (elements ++ [child_record I (world s) child])
                (emit (EvText child) s))
      as (l1 & s1 & -> & Hw1 & Hl1).
    { apply Forall_app. split; [exact Hall|]. apply Forall_singleton.
      apply child_record_described. now rewrite Hid. }
    destruct (IH l1 s1 Hl1) as (l & oe & s' & Hrun & Hw & Hl).
    exists l, oe, s'. rewrite Hrun. repeat split; [|exact Hl].
    rewrite Hw, Hw1. reflexivity.
Qed.

(** The scan of children that can all be described. *)
Lemma child_loop_all (col : components (Handle R)) (hs : list (Handle R))
    (subs : Handle R -> list (Handle R)) (k : nat)
    (elements : list (gmap string pyval)) (s : state R) :
  (forall (i : nat) c, hs !! i = Some c ->
     CItem col (Z.of_nat (k + i)) = Ok c) ->
  (forall c, c ∈ hs -> scannable I (world s) c (subs c)) ->
  exists s',
    child_loop I col (map Z.of_nat (seq k (length hs))) elements s
    = (Ok (elements
           ++ flat_map (fun c => child_record I (world s) c
                                 :: map (sub_record I (world s)) (subs c))
                hs, None), s')
    /\ world s' = world s.
Proof.
  revert k elements s. induction hs as [|c hs IH];
    intros k elements s Hitems Hscan.
  - exists s. simpl. rewrite app_nil_r. split; reflexivity.
  - cbn [length seq map child_loop flat_map]. unfold bind at 1.
    rewrite child_step_run.
    pose proof (Hitems 0%nat c eq_refl) as Hk.
    rewrite Nat.add_0_r in Hk. rewrite Hk.
    pose proof (Hscan c ltac:(left)) as Hc.
    destruct Hc as [Hid Hsubs].
    destruct (identity I (world s) c) as [base|e] eqn:Hidc; [|discriminate].
    unfold bind at 1. rewrite with_text_run.
    unfold bind at 1. rewrite with_changeable_run. cbn [world emit].
    rewrite (child_record_eq _ _ _ Hidc).
    unfold bind at 1.
    destruct (sub_scan_all c (subs c)
                (elements ++ [child_record I (world s) c])
                (emit (EvText c) s))
      as (s1 & -> & Hw1).
    { split; [cbn [world emit]; now rewrite Hidc | exact Hsubs]. }
    cbn [world emit] in Hw1 |- *.
    destruct (IH (S k)
                ((elements ++ [child_record I (world s) c])
                 ++ map (sub_record I (world s)) (subs c)) s1)
      as (s' & Hrun & Hw).
    + intros i c' Hi. replace (S k + i)%nat with (k + S i)%nat by lia.
      now apply Hitems.
    + intros c' Hin. rewrite Hw1. apply Hscan. now right.
    + exists s'. rewrite Hrun, Hw1. split; [|congruence].
      rewrite <- !app_assoc. reflexivity.
Qed.

(** The scan stops at the first child that cannot be described. *)
Lemma child_loop_stops (col : components (Handle R))
    (pre post : list (Handle R)) (c : Handle R)
    (subs : Handle R -> list (Handle R)) (k : nat) (e : exn)
    (elements : list (gmap string pyval)) (s : state R) :
  (forall (i : nat) c', (pre ++ c :: post) !! i = Some c' ->
     CItem col (Z.of_nat (k + i)) = Ok c') ->
  (forall c', c' ∈ pre -> scannable I (world s) c' (subs c')) ->
  identity I (world s) c = Raise e ->
  exists s',
    child_loop I col (map Z.of_nat (seq k (length (pre ++ c :: post))))
      elements s
    = (Ok (elements
           ++ flat_map (fun c => child_record I (world s) c
                                 :: map (sub_record I (world s)) (subs c))
                pre, Some e), s')
    /\ world s' = world s.
Proof.
  revert k elements s. induction pre as [|c0 pre IH];
    intros k elements s Hitems Hscan Hbad.
  - cbn [app length seq map child_loop flat_map]. unfold bind at 1.
    rewrite child_step_run.
    pose proof (Hitems 0%nat c eq_refl) as Hk.
    rewrite Nat.add_0_r in Hk. rewrite Hk, Hbad.
    exists s. rewrite app_nil_r. split; reflexivity.
  - cbn [app length seq map child_loop flat_map]. unfold bind at 1.
    rewrite child_step_run.
    pose proof (Hitems 0%nat c0 eq_refl) as Hk.
    rewrite Nat.add_0_r in Hk. rewrite Hk.
    destruct (Hscan c0 ltac:(left)) as [Hid Hsubs].
    destruct (identity I (world s) c0) as [base|e0] eqn:Hidc; [|discriminate].
    unfold bind at 1. rewrite with_text_run.
    unfold bind at 1. rewrite with_changeable_run. cbn [world emit].
    rewrite (child_record_eq _ _ _ Hidc).
    unfold bind at 1.
    destruct (sub_scan_all c0 (subs c0)
                (elements ++ [child_record I (world s) c0])
                (emit (EvText c0) s))
      as (s1 & -> & Hw1).
    { split; [cbn [world emit]; now rewrite Hidc | exact Hsubs]. }
    cbn [world emit] in Hw1 |- *.
    destruct (IH (S k)
                ((elements ++ [child_record I (world s) c0])
                 ++ map (sub_record I (world s)) (subs c0)) s1)
      as (s' & Hrun & Hw).
    + intros i c' Hi. replace (S k + i)%nat with (k + S i)%nat by lia.
      now apply Hitems.
    + intros c' Hin. rewrite Hw1. apply Hscan. now right.
    + now rewrite Hw1.
    + exists s'. rewrite Hrun, Hw1. split; [|congruence].
      rewrite <- !app_assoc. reflexivity.
Qed.
End ExplorerScan.

Section ExplorerClaims.
Context {R : Remote} (I : Introspection R).
Import SapSession.
Import Explorer.
Local Open Scope list_scope.

Lemma explore_screen_from_children (container_id : string)
    (col : components (Handle R)) (s : state R) :
  container_children I (world s) container_id = Ok col ->
  explore_screen I container_id s
  = (r <- child_loop I col (py_range (CCount col)) [] ;;
     match r with
     | (elements, Some e) =>
         log WARNING ("explore_screen error: " +:+ exn_str e) ;;; ret elements
     | (elements, None) => ret elements
     end) (emit (EvFindById container_id) s).
Proof.
  unfold container_children. intros Hcol. unfold explore_screen.
  unfold bind at 1. unfold try_except. unfold bind at 1.
  unfold session_findById, query.
  destruct (findById R (world s) container_id) as [container|e];
    [|discriminate].
  unfold bind at 1. unfold peek. cbn [world emit]. rewrite Hcol.
  destruct (child_loop_total I col (py_range (CCount col)) []
              (emit (EvFindById container_id) s) (Forall_nil_2 _))
    as (l & oe & s' & Hrun & _).
  unfold bind. rewrite Hrun. reflexivity.
Qed.

(** X21. [explore_screen] never raises, leaves the remote state as it is, and
    every record it returns carries an id, a type, a name and a text, all
    strings, and beside them at most the key [changeable]. *)
Theorem explore_screen_never_raises (container_id : string) (s : state R) :
  exists l s',
    explore_screen I container_id s = (Ok l, s')
    /\ world s' = world s
    /\ Forall described l.
Proof.
  destruct (container_children I (world s) container_id) as [col|e] eqn:Hcol.
  - rewrite (explore_screen_from_children _ col s Hcol).
    destruct (child_loop_total I col (py_range (CCount col)) []
                (emit (EvFindById container_id) s) (Forall_nil_2 _))
      as (l & oe & s' & Hrun & Hw & Hl).
    unfold bind at 1. rewrite Hrun.
    destruct oe as [e|]; unfold_monad; eauto.
  - unfold container_children in Hcol. unfold explore_screen.
    unfold bind at 1. unfold try_except. unfold bind at 1.
    unfold session_findById, query.
    destruct (findById R (world s) container_id) as [container|e0].
    + unfold bind at 1. unfold peek. cbn [world emit]. rewrite Hcol.
      unfold_monad. eexists _, _. repeat split. constructor.
    + unfold_monad. eexists _, _. repeat split. constructor.
Qed.

(** X22. [explore_screen] on a container that does not resolve, or whose
    children cannot be read: the empty list, and one warning carrying the
    exception's text. *)
Theorem explore_screen_without_container (container_id : string) (e : exn)
    (s : state R) :
  container_children I (world s) container_id = Raise e ->
  explore_screen I container_id s
  = (Ok [],
     mkState (world s)
       (trace s
        ++ [EvFindById container_id;
            EvLog WARNING ("explore_screen error: " +:+ exn_str e)])).
Proof.
  unfold container_children. intros Hcol. unfold explore_screen.
  unfold bind at 1. unfold try_except. unfold bind at 1.
  unfold session_findById, query.
  destruct (findById R (world s) container_id) as [container|e0].
  - unfold bind at 1. unfold peek. cbn [world emit]. rewrite Hcol.
    unfold_monad. simpl. now rewrite <- app_assoc.
  - injection Hcol as ->. unfold_monad. simpl. now rewrite <- app_assoc.
Qed.

(** X23. [explore_screen] on a screen all of whose children can be described:
    one record per child in order, each followed by the records of its
    sub-children when it is a container, and nothing from further down; a
    child's record has the key [changeable], a sub-child's record has not. *)
Theorem explore_screen_scans_one_level (container_id : string)
    (col : components (Handle R)) (hs : list (Handle R))
    (subs : Handle R -> list (Handle R)) (s : state R) :
  container_children I (world s) container_id = Ok col ->
  lists_components col hs ->
  (forall c, c ∈ hs -> scannable I (world s) c (subs c)) ->
  fst (explore_screen I container_id s)
  = Ok (flat_map (fun c => child_record I (world s) c
                           :: map (sub_record I (world s)) (subs c)) hs)
  /\ (forall c, is_Some (child_record I (world s) c !! "changeable"))
  /\ (forall sc, sub_record I (world s) sc !! "changeable" = None).
Proof.
  intros Hcol [Hcount Hitems] Hscan. split; [|split].
  - rewrite (explore_screen_from_children _ col s Hcol).
    rewrite Hcount, py_range_of_nat.
    destruct (child_loop_all I col hs subs 0 []
                (emit (EvFindById container_id) s) Hitems Hscan)
      as (s' & Hrun & _).
    unfold bind at 1. rewrite Hrun. reflexivity.
  - intros c. unfold child_record. rewrite lookup_insert_eq. eauto.
  - intros sc. unfold sub_record, identity.
    destruct (Id I (world s) sc); [|apply lookup_empty].
    destruct (Type_ I (world s) sc); [|apply lookup_empty].
    destruct (Name I (world s) sc); [|apply lookup_empty].
    by simplify_map_eq.
Qed.

(** X24. [explore_screen] gives up at the first child whose id, type or name
    cannot be read: it returns what it scanned before that child, logs one
    warning with the exception's text, and does not look at the children
    after it. *)
Theorem explore_screen_stops_at_undescribable_child (container_id : string)
    (col : components (Handle R)) (pre post : list (Handle R))
    (c : Handle R) (subs : Handle R -> list (Handle R)) (e : exn)
    (s : state R) :
  container_children I (world s) container_id = Ok col ->
  lists_components col (pre ++ c :: post) ->
  (forall c', c' ∈ pre -> scannable I (world s) c' (subs c')) ->
  identity I (world s) c = Raise e ->
  exists s',
    explore_screen I container_id s
    = (Ok (flat_map (fun c => child_record I (world s) c
                              :: map (sub_record I (world s)) (subs c)) pre),
       s')
    /\ last (trace s')
       = Some (EvLog WARNING ("explore_screen error: " +:+ exn_str e)).
Proof.
  intros Hcol [Hcount Hitems] Hscan Hbad.
  rewrite (explore_screen_from_children _ col s Hcol).
  rewrite Hcount, py_range_of_nat.
  destruct (child_loop_stops I col pre post c subs 0 e []
              (emit (EvFindById container_id) s) Hitems Hscan Hbad)
    as (s' & Hrun & _).
  unfold bind at 1. rewrite Hrun. unfold_monad. cbn [app].
  eexists. split; [reflexivity|]. cbn [trace]. apply last_snoc.
Qed.
End ExplorerClaims.

(** No secondary window is open on the scripted screen. *)
Lemma explore_screen_without_container_witness :
  Explorer.explore_screen (Screen.introspection Screen.form) "wnd[1]/usr"
    (Screen.start Screen.form)
  = (Ok [],
     mkState (R := Screen.remote Screen.form)
       (world (Screen.start Screen.form))
       [EvFindById "wnd[1]/usr";
        EvLog WARNING
          "explore_screen error: The control could not be found by id."]).
Proof.
  apply (explore_screen_without_container (Screen.introspection Screen.form)
           "wnd[1]/usr" Mock.not_found (Screen.start Screen.form) eq_refl).
Defined.

Lemma collection_of_lists (hs : list string) :
  lists_components (Screen.collection_of hs) hs.
Proof.
  split; [reflexivity|]. intros i c Hc. cbn [Screen.collection_of CItem].
  now rewrite Nat2Z.id, Hc.
Defined.

Lemma form_scannable (c : string) :
  c ∈ ["wnd[0]/usr/ctxtBUKRS"; "wnd[0]/usr/lblINFO"; "wnd[0]/usr/subAREA"] ->
  scannable (Screen.introspection Screen.form)
    (world (Screen.start Screen.form)) c (form_subs c).
Proof.
  intros Hc.
  apply elem_of_cons in Hc as [->|Hc]; [split; reflexivity|].
  apply elem_of_cons in Hc as [->|Hc]; [split; reflexivity|].
  apply list_elem_of_singleton in Hc as ->.
  split; [reflexivity|].
  change (lists_components
            (Screen.collection_of
               ["wnd[0]/usr/subAREA/txtNOTE"; "wnd[0]/usr/subAREA/subDEEP"])
            ["wnd[0]/usr/subAREA/txtNOTE"; "wnd[0]/usr/subAREA/subDEEP"]
          /\ forall sc,
               sc ∈ ["wnd[0]/usr/subAREA/txtNOTE"; "wnd[0]/usr/subAREA/subDEEP"] ->
               is_ok (identity (Screen.introspection Screen.form)
                        (world (Screen.start Screen.form)) sc) = true).
  split; [apply collection_of_lists|].
  intros sc Hsc.
  apply elem_of_cons in Hsc as [->|Hsc]; [reflexivity|].
  apply list_elem_of_singleton in Hsc as ->. reflexivity.
Defined.

(** The scripted form: three children, the third a container of two; the
    button two levels down is not among the five records. *)
Lemma explore_screen_scans_one_level_witness :
  exists l,
    fst (Explorer.explore_screen (Screen.introspection Screen.form)
           "wnd[0]/usr" (Screen.start Screen.form)) = Ok l
    /\ map (fun record : gmap string pyval => record !! "id") l
       = [Some (VStr "wnd[0]/usr/ctxtBUKRS"); Some (VStr "wnd[0]/usr/lblINFO");
          Some (VStr "wnd[0]/usr/subAREA");
          Some (VStr "wnd[0]/usr/subAREA/txtNOTE");
          Some (VStr "wnd[0]/usr/subAREA/subDEEP")].
Proof.
  destruct (explore_screen_scans_one_level (Screen.introspection Screen.form)
              "wnd[0]/usr"
              (Screen.collection_of
                 ["wnd[0]/usr/ctxtBUKRS"; "wnd[0]/usr/lblINFO";
                  "wnd[0]/usr/subAREA"])
              ["wnd[0]/usr/ctxtBUKRS"; "wnd[0]/usr/lblINFO";
               "wnd[0]/usr/subAREA"]
              form_subs (Screen.start Screen.form)
              eq_refl (collection_of_lists _) form_scannable)
    as (Hrun & _).
  eexists. split; [exact Hrun|]. vm_compute. reflexivity.
Defined.

(** The scripted row of three fields: the type of the second cannot be
    read, and only the first is reported. *)
Lemma explore_screen_stops_at_undescribable_child_witness :
  exists s',
    Explorer.explore_screen (Screen.introspection Screen.broken) "wnd[0]/usr"
      (Screen.start Screen.broken)
    = (Ok [child_record (Screen.introspection Screen.broken)
             (world (Screen.start Screen.broken)) "wnd[0]/usr/txtA"], s')
    /\ last (trace s') = Some (EvLog WARNING "explore_screen error: stale").
Proof.
  apply (explore_screen_stops_at_undescribable_child
           (Screen.introspection Screen.broken) "wnd[0]/usr"
           (Screen.collection_of
              ["wnd[0]/usr/txtA"; "wnd[0]/usr/txtB"; "wnd[0]/usr/txtC"])
           ["wnd[0]/usr/txtA"] ["wnd[0]/usr/txtC"] "wnd[0]/usr/txtB"
           (fun _ => []) (ComError "stale") (Screen.start Screen.broken)
           eq_refl (collection_of_lists _)).
  - intros c Hc. apply list_elem_of_singleton in Hc as ->.
    split; reflexivity.
  - reflexivity.
Defined.
